(** * jefit: the log-line parser and the workout extractor of [jefit/client.py]

    A shallow embedding of [parse_to_lifting_log] and of
    [JEFITClient.get_workout_from_date], with the library calls they make
    ([re], [int], [float], [str.strip], pydantic's field validation, the
    [bs4] tree searches and [httpx]'s status check) written out as Rocq
    functions.

    Text is [string]: a sequence of code points below 256.  On that range
    the regular-expression class [\d] is exactly the ASCII digits and
    [str.isspace] is the set listed in [isspace] below.  Integers are [Z];
    a Python [float] is an IEEE-754 binary64 value, [spec_float] with
    precision 53 and maximal exponent 1024.  The limit of the interpreter
    on memory is left out. *)

From Stdlib Require Import String Ascii List ZArith Lia Bool Arith Recdef.
From Stdlib Require Import Floats.SpecFloat.
From Stdlib Require Import DecimalString DecimalN DecimalPos.
Import ListNotations.

Local Open Scope string_scope.
Local Open Scope list_scope.

(** ** Outcomes of fallible code *)

(** The exceptions that the modelled code can raise. *)
Inductive exn : Type :=
| TransportError    (* httpx: the request got no response *)
| HTTPStatusError   (* httpx: [raise_for_status] *)
| AttributeError    (* attribute access on [None] *)
| AssertionError    (* a failed [assert] *)
| ValueError        (* [float] on a non-literal, tuple unpacking *)
| ValidationError.  (* pydantic: a field value was refused *)

Inductive result (A : Type) : Type :=
| Ok (a : A)
| Raise (e : exn).
Arguments Ok {A} a.
Arguments Raise {A} e.

Definition bind {A B} (r : result A) (k : A -> result B) : result B :=
  match r with
  | Ok a => k a
  | Raise e => Raise e
  end.

Declare Scope result_scope.
Delimit Scope result_scope with result.
Notation "x <- r ;; k" := (bind r (fun x => k))
  (at level 61, r at next level, right associativity) : result_scope.

(** A list comprehension or [for] loop whose body can raise: the elements
    are processed in order and the first exception ends the loop. *)
Fixpoint mapM {A B} (f : A -> result B) (l : list A) : result (list B) :=
  match l with
  | [] => Ok []
  | a :: l' =>
      match f a with
      | Ok b =>
          match mapM f l' with
          | Ok bs => Ok (b :: bs)
          | Raise e => Raise e
          end
      | Raise e => Raise e
      end
  end.

(** ** Python built-ins on text and numbers *)

Module Py.

(** [c.isdigit()] for a code point below 256, which is also what [\d]
    matches there. *)
Definition is_digit (c : ascii) : bool :=
  let n := nat_of_ascii c in ((48 <=? n)%nat && (n <=? 57)%nat)%bool.

(** [c.isspace()] for a code point below 256: tab to carriage return, the
    four separators 0x1c-0x1f, space, NEL (0x85) and no-break space (0xa0). *)
Definition isspace (c : ascii) : bool :=
  let n := nat_of_ascii c in
  (((9 <=? n)%nat && (n <=? 13)%nat) || ((28 <=? n)%nat && (n <=? 32)%nat)
   || (n =? 133)%nat || (n =? 160)%nat)%bool.

Fixpoint lstrip (s : string) : string :=
  match s with
  | String c s' => if isspace c then lstrip s' else s
  | EmptyString => EmptyString
  end.

(** [rstrip] keeps a character when it is not a space or when something
    that survives follows it. *)
Fixpoint rstrip (s : string) : string :=
  match s with
  | String c s' =>
      match rstrip s' with
      | EmptyString => if isspace c then EmptyString else String c EmptyString
      | t => String c t
      end
  | EmptyString => EmptyString
  end.

(** [s.strip()] *)
Definition strip (s : string) : string := rstrip (lstrip s).

(** The white space that [int] and [float] skip around a literal.  These
    conversions keep a character below 127 as it is and skip the white
    space of C, tab to carriage return and the space: the separators
    0x1c-0x1f, which [str.strip] removes, make a literal invalid.  NEL and
    the no-break space are turned into spaces first. *)
Definition isspace_literal (c : ascii) : bool :=
  let n := nat_of_ascii c in
  (((9 <=? n)%nat && (n <=? 13)%nat) || (n =? 32)%nat
   || (n =? 133)%nat || (n =? 160)%nat)%bool.

Fixpoint lstrip_literal (s : string) : string :=
  match s with
  | String c s' => if isspace_literal c then lstrip_literal s' else s
  | EmptyString => EmptyString
  end.

Fixpoint rstrip_literal (s : string) : string :=
  match s with
  | String c s' =>
      match rstrip_literal s' with
      | EmptyString => if isspace_literal c then EmptyString else String c EmptyString
      | t => String c t
      end
  | EmptyString => EmptyString
  end.

Definition strip_literal (s : string) : string := rstrip_literal (lstrip_literal s).

(** [''.join(l)] and [sep.join(l)] *)
Definition join (sep : string) (l : list string) : string := String.concat sep l.

Definition digit_val (c : ascii) : Z := Z.of_nat (nat_of_ascii c) - 48.

(** The grammar [digit (["_"] digit)*] of the numeric literals accepted by
    [int] and [float]: its value on top of [acc], the number of digits read
    and the text that follows.  [prev] tells whether the previous character
    was a digit, so that an underscore is taken only between two digits. *)
Fixpoint digitpart (acc : Z) (n : nat) (prev : bool) (s : string) : option (Z * nat * string) :=
  match s with
  | String c s' =>
      if is_digit c then digitpart (10 * acc + digit_val c) (S n) true s'
      else if (Ascii.eqb c "_" && prev)%bool then
        match s' with
        | String d _ => if is_digit d then digitpart acc n false s' else None
        | EmptyString => None
        end
      else if prev then Some (acc, n, s) else None
  | EmptyString => if prev then Some (acc, n, s) else None
  end.

(** An optional sign in front of a literal: [true] for a minus. *)
Definition sign (s : string) : bool * string :=
  match s with
  | String "+" s' => (false, s')
  | String "-" s' => (true, s')
  | _ => (false, s)
  end.

(** [sys.get_int_max_str_digits()]: the most digits that [int] converts,
    4300 unless the interpreter is told otherwise. *)
Definition int_max_str_digits : nat := 4300.

(** [int(s)] for a string [s], in base 10: surrounding white space, an
    optional sign, digits with single underscores between them, at most
    [int_max_str_digits] digits, zeros in front included.  [None] is
    Python's [ValueError]. *)
Definition int (s : string) : option Z :=
  let '(neg, t) := sign (strip_literal s) in
  match digitpart 0 0 false t with
  | Some (v, n, EmptyString) =>
      if (n <=? int_max_str_digits)%nat then Some (if neg then (- v)%Z else v)
      else None
  | _ => None
  end.

(** *** Floats *)

Definition prec : Z := 53.
Definition emax : Z := 1024.

(** [float(z)] for an integer [z]: the binary64 value nearest to [z], ties
    to even, an infinity past the largest finite value. *)
Definition float_of_Z (z : Z) : spec_float := binary_normalize prec emax z 0 false.

(** The binary64 value nearest to [m * 10^e], for [0 <= m]; [neg] is the
    sign of the literal. *)
Definition float_of_decimal (neg : bool) (m e : Z) : spec_float :=
  if (m =? 0)%Z then S754_zero neg
  else if (0 <=? e)%Z then
    binary_normalize prec emax (cond_Zopp neg (m * 10 ^ e)) 0 false
  else
    let '(q, e', l) := SFdiv_core_binary prec emax m 0 (10 ^ (- e)) 0 in
    binary_round_aux prec emax neg q e' l.

Definition lower (c : ascii) : ascii :=
  let n := nat_of_ascii c in
  if ((65 <=? n)%nat && (n <=? 90)%nat)%bool then ascii_of_nat (n + 32) else c.

Fixpoint lower_str (s : string) : string :=
  match s with
  | String c s' => String (lower c) (lower_str s')
  | EmptyString => EmptyString
  end.

(** The grammar [[digitpart] "." digitpart | digitpart ["."]]: the digits
    read as one integer, the number of digits after the point and the text
    that follows. *)
Definition number (s : string) : option (Z * nat * string) :=
  match s with
  | String "." s' => digitpart 0 0 false s'
  | _ =>
      match digitpart 0 0 false s with
      | Some (i, _, String "." rest) =>
          match digitpart i 0 false rest with
          | Some r => Some r
          | None => Some (i, 0%nat, rest)
          end
      | Some (i, _, rest) => Some (i, 0%nat, rest)
      | None => None
      end
  end.

(** The grammar [[("e" | "E") [sign] digitpart]], up to the end of the text. *)
Definition exponent (s : string) : option Z :=
  match s with
  | EmptyString => Some 0%Z
  | String c s' =>
      if Ascii.eqb (lower c) "e" then
        let '(neg, t) := sign s' in
        match digitpart 0 0 false t with
        | Some (v, _, EmptyString) => Some (if neg then (- v)%Z else v)
        | _ => None
        end
      else None
  end.

(** [float(s)] for a string [s]: surrounding white space, an optional sign,
    then [inf], [infinity] or [nan] in any case, or a decimal number with an
    optional exponent, rounded to the nearest binary64 value.  [None] is
    Python's [ValueError]. *)
Definition float (s : string) : option spec_float :=
  let '(neg, t) := sign (strip_literal s) in
  let l := lower_str t in
  if ((l =? "inf") || (l =? "infinity"))%bool%string then Some (S754_infinity neg)
  else if (l =? "nan")%string then Some S754_nan
  else
    match number t with
    | Some (m, k, rest) =>
        match exponent rest with
        | Some e => Some (float_of_decimal neg m (e - Z.of_nat k))
        | None => None
        end
    | None => None
    end.

End Py.

(** ** Regular expressions: the fragment of [re] that the client uses *)

Module Re.

(** A pattern is a sequence of items: a literal character, or a capturing
    group around a greedy run of one or more digits, [(\d+)]. *)
Inductive item : Type :=
| Lit (c : ascii)
| Digits1.

Definition regex : Type := list item.

Fixpoint lits (s : string) : regex :=
  match s with
  | String c s' => Lit c :: lits s'
  | EmptyString => []
  end.

(** [\d+] followed by the rest of the pattern, [cont]: the longest run of
    digits is tried first and given back one digit at a time while the rest
    of the pattern does not match.  [acc] holds the digits taken so far. *)
Fixpoint plus_digits {R} (cont : string -> string -> option R) (acc s : string) : option R :=
  match s with
  | String c s' =>
      if Py.is_digit c then
        match plus_digits cont (acc ++ String c EmptyString)%string s' with
        | Some r => Some r
        | None => cont (acc ++ String c EmptyString)%string s'
        end
      else None
  | EmptyString => None
  end.

(** [pattern.match(s)]: the groups captured and the text after the match. *)
Fixpoint match_here (p : regex) (groups : list string) (s : string) : option (list string * string) :=
  match p with
  | [] => Some (groups, s)
  | Lit c :: p' =>
      match s with
      | String c' s' => if Ascii.eqb c c' then match_here p' groups s' else None
      | EmptyString => None
      end
  | Digits1 :: p' =>
      plus_digits (fun cap rest => match_here p' (groups ++ [cap]) rest) EmptyString s
  end.

(** [pattern.search(s)]: the leftmost match. *)
Fixpoint search (p : regex) (s : string) : option (list string * string) :=
  match match_here p [] s with
  | Some r => Some r
  | None =>
      match s with
      | String _ s' => search p s'
      | EmptyString => None
      end
  end.

(** [pattern.findall(s)] for a pattern with several groups: the groups of
    every match, left to right, each search starting where the previous
    match ended (one character further after an empty match). *)
#[local] Set Warnings "-funind-cannot-define-principle,-funind-cannot-build-inversion".
Function findall (p : regex) (s : string) {measure String.length s}
    : list (list string) :=
  match search p s with
  | None => []
  | Some (gs, rest) =>
      if lt_dec (String.length rest) (String.length s) then gs :: findall p rest
      else
        match s with
        | EmptyString => [gs]
        | String _ s' => gs :: findall p s'
        end
  end.
Proof.
  - intros. assumption.
  - intros. simpl. lia.
Defined.

End Re.

(** ** The models of [jefit/client.py] *)

(** [class LiftingLog(pydantic.BaseModel)] *)
Record LiftingLog : Type := {
  set_number : Z;
  weight : spec_float;
  reps : Z
}.

(** [class ExerciseBlock(pydantic.BaseModel)] *)
Record ExerciseBlock : Type := {
  exercise_name : string;
  one_rep_max : spec_float;
  lifting_logs : list LiftingLog
}.

(** [class JEFITClientConfig(pydantic.BaseModel)] *)
Record JEFITClientConfig : Type := {
  user_base_url : string;
  logs_base_url : string
}.

Definition USER_BASE_URL : string := "https://www.jefit.com/user".
Definition LOGS_BASE_URL : string := "https://www.jefit.com/members/user-logs/log/".

Definition DEFAULT_JEFIT_CONFIG : JEFITClientConfig :=
  {| user_base_url := USER_BASE_URL; logs_base_url := LOGS_BASE_URL |}.

(** pydantic's validator of an [int] field, for a string: [int_validator]
    of pydantic 1 refuses a string of more than 4300 characters and
    converts any other with [int].  pydantic 2 counts the characters left
    once zeros in front are dropped: the two agree on a run of at most 4300
    digits, which is converted, and on a run that denotes [10^4300] or
    more, which is refused.  The theorems below are stated for these. *)
Definition int_validator (v : string) : option Z :=
  if (String.length v <=? 4300)%nat then Py.int v else None.

(** pydantic's validator of a [float] field, for a string: [float]. *)
Definition float_validator (v : string) : option spec_float := Py.float v.

(** [LiftingLog(set_number=..., weight=..., reps=...)] called with strings:
    pydantic runs the validator of each field and raises [ValidationError]
    when one of them fails. *)
Definition LiftingLog_init (set_ weight_ reps_ : string) : result LiftingLog :=
  match int_validator set_, float_validator weight_, int_validator reps_ with
  | Some n, Some w, Some r => Ok {| set_number := n; weight := w; reps := r |}
  | _, _, _ => Raise ValidationError
  end.

(** [re.compile(r'Set (\d+) : (\d+)x(\d+)')] *)
Definition pattern : Re.regex :=
  Re.lits "Set " ++ [Re.Digits1] ++ Re.lits " : " ++ [Re.Digits1] ++
  Re.lits "x" ++ [Re.Digits1].

(** [parse_to_lifting_log]: the comprehension unpacks each match into three
    names, which raises [ValueError] on any other number of groups. *)
Definition parse_to_lifting_log (liftinglogs : string) : result (list LiftingLog) :=
  mapM (fun m =>
          match m with
          | [set_; weight_; reps_] => LiftingLog_init set_ weight_ reps_
          | _ => Raise ValueError
          end)
       (Re.findall pattern liftinglogs).

(** ** The parsed page: the fragment of [bs4] that the client uses *)

Module Bs4.

(** The value of an attribute in [Tag.attrs]: a string, or the list of
    values of a multi-valued attribute such as [class]. *)
Inductive attr_value : Type :=
| AttrStr (s : string)
| AttrList (l : list string).

#[local] Set Warnings "-register-all".
Inductive PageElement : Type :=
| NavigableString (s : string)
| Comment (s : string)
| Tag (name : string) (attrs : list (string * attr_value)) (contents : list PageElement).

(** [e.descendants]: the elements below [e], in document order. *)
Fixpoint descendants (e : PageElement) : list PageElement :=
  match e with
  | Tag _ _ contents => flat_map (fun c => c :: descendants c) contents
  | _ => []
  end.

(** [attrs.get(key)] *)
Fixpoint get (key : string) (attrs : list (string * attr_value)) : option attr_value :=
  match attrs with
  | (k, v) :: attrs' => if (k =? key)%string then Some v else get key attrs'
  | [] => None
  end.

(** [SoupStrainer._matches] of an attribute value against a string: a
    missing attribute matches only the empty string; a multi-valued one
    matches when one of its values does or when the values joined by single
    spaces do. *)
Definition matches_value (v : option attr_value) (match_against : string) : bool :=
  match v with
  | None => (match_against =? EmptyString)%string
  | Some (AttrStr s) => (s =? match_against)%string
  | Some (AttrList l) =>
      (existsb (fun i => (i =? match_against)%string) l
       || (Py.join " " l =? match_against)%string)%bool
  end.

(** [SoupStrainer.search_tag]: strings and comments never match a search by
    name or attribute; a tag matches when its name is the one asked for, if
    any, and every attribute asked for matches. *)
Definition search_tag (name : option string) (attrs : list (string * string))
    (e : PageElement) : bool :=
  match e with
  | Tag n a _ =>
      (match name with Some n' => (n =? n')%string | None => true end
       && forallb (fun kv => matches_value (get (fst kv) a) (snd kv)) attrs)%bool
  | _ => false
  end.

(** [e.find_all(name, **attrs)], also spelled [findAll] *)
Definition find_all (name : option string) (attrs : list (string * string))
    (e : PageElement) : list PageElement :=
  filter (search_tag name attrs) (descendants e).

(** [e.find(name, **attrs)]: the first result of [find_all], or [None] *)
Definition find (name : option string) (attrs : list (string * string))
    (e : PageElement) : option PageElement :=
  hd_error (find_all name attrs e).

(** [e.get_text()]: the strings below [e] joined, comments left out. *)
Definition get_text (e : PageElement) : string :=
  Py.join EmptyString
    (flat_map (fun d => match d with NavigableString s => [s] | _ => [] end)
       (descendants e)).

End Bs4.

(** ** The request: the fragment of [httpx] that the client uses *)

Module Httpx.

Record Request : Type := {
  url : string;
  params : list (string * string)
}.

Record Response : Type := {
  status_code : Z;
  content : string
}.

(** The network as the client sees it: what the site answers to a request,
    given the requests that came before ([None] when no response arrives),
    and the requests sent so far. *)
Record Net : Type := {
  server : list Request -> Request -> option Response;
  sent : list Request
}.

(** [session.get(url, params=params)] *)
Definition get (url_ : string) (params_ : list (string * string)) (net : Net)
    : result Response * Net :=
  let request := {| url := url_; params := params_ |} in
  let net' := {| server := server net; sent := sent net ++ [request] |} in
  match server net (sent net) request with
  | Some response => (Ok response, net')
  | None => (Raise TransportError, net')
  end.

(** [response.is_success] *)
Definition is_success (response : Response) : bool :=
  ((200 <=? status_code response)%Z && (status_code response <=? 299)%Z)%bool.

(** [response.raise_for_status()] *)
Definition raise_for_status (response : Response) : result unit :=
  if is_success response then Ok tt else Raise HTTPStatusError.

End Httpx.

(** ** The client *)

(** [class JEFITClient] *)
Record JEFITClient : Type := {
  url_config : JEFITClientConfig
}.

(** [x.attr] where [x] may be [None] *)
Definition not_none {A} (x : option A) : result A :=
  match x with
  | Some a => Ok a
  | None => Raise AttributeError
  end.

(** [assert b] *)
Definition assert (b : bool) : result unit :=
  if b then Ok tt else Raise AssertionError.

(** [float(s)] as a statement that can raise *)
Definition float_of_text (s : string) : result spec_float :=
  match Py.float s with
  | Some f => Ok f
  | None => Raise ValueError
  end.

Local Open Scope result_scope.

(** The body of the loop [for exercise in exercises] of
    [get_workout_from_date]: the record that is appended for one exercise
    block. *)
Definition exercise_block_of (exercise : Bs4.PageElement) : result ExerciseBlock :=
  bar <- not_none (Bs4.find (Some "div") [("class", "fixedLogBar")] exercise) ;;
  let blocks := Bs4.find_all (Some "div") [("class", "fixedLogBarBlock align-top")] bar in
  _ <- assert (length blocks =? 4)%nat ;;
  match blocks with
  | [picture; name; onerepmax; liftinglogs] =>
      a <- not_none (Bs4.find (Some "a") [] name) ;;
      let name := Py.strip (Bs4.get_text a) in
      onerepmax <- float_of_text (Bs4.get_text onerepmax) ;;
      liftinglogs <- parse_to_lifting_log (Bs4.get_text liftinglogs) ;;
      Ok {| exercise_name := name; one_rep_max := onerepmax; lifting_logs := liftinglogs |}
  | _ => Raise ValueError
  end.

Section Client.

(** [bs4.BeautifulSoup(content, "html.parser")]: the HTML parser is not
    part of the client and is left open. *)
Variable BeautifulSoup : string -> Bs4.PageElement.

(** [JEFITClient.get_workout_from_date] *)
Definition get_workout_from_date (self : JEFITClient) (username date : string)
    (net : Httpx.Net) : result (list ExerciseBlock) * Httpx.Net :=
  let '(response, net) :=
    Httpx.get (logs_base_url (url_config self)) [("xid", username); ("dd", date)] net in
  (response <- response ;;
   _ <- Httpx.raise_for_status response ;;
   let soup := BeautifulSoup (Httpx.content response) in
   workout <- not_none (Bs4.find None [("id", "logList1")] soup) ;;
   let exercises := Bs4.find_all (Some "div") [("class", "exercise-block")] workout in
   mapM exercise_block_of exercises,
   net).

End Client.

(** ** The vocabulary of the specification *)

(** *** Log lines *)

Fixpoint all_digits (s : string) : bool :=
  match s with
  | String c s' => (Py.is_digit c && all_digits s')%bool
  | EmptyString => true
  end.

(** [<int>]: a non-empty run of digits *)
Definition is_number (s : string) : bool :=
  match s with
  | EmptyString => false
  | _ => all_digits s
  end.

Fixpoint decimal_from (acc : Z) (s : string) : Z :=
  match s with
  | String c s' => decimal_from (10 * acc + Py.digit_val c) s'
  | EmptyString => acc
  end.

(** The integer that a run of digits denotes. *)
Definition decimal_value (s : string) : Z := decimal_from 0 s.

(** An integer written in decimal, as in the token ["Set 3 : 70x5"]. *)
Definition number_text (n : N) : string := NilEmpty.string_of_uint (N.to_uint n).

(** The token ["Set <n> : <w>x<r>"] *)
Definition token (n w r : string) : string :=
  ("Set " ++ n ++ " : " ++ w ++ "x" ++ r)%string.

Definition starts_with_digit (s : string) : bool :=
  match s with
  | String c _ => Py.is_digit c
  | EmptyString => false
  end.

Fixpoint has_char (c : ascii) (s : string) : bool :=
  match s with
  | String d s' => (Ascii.eqb c d || has_char c s')%bool
  | EmptyString => false
  end.

(** A well-formed token occurs somewhere in [s]. *)
Definition token_occurs (s : string) : Prop :=
  exists pre n w r post,
    is_number n = true /\ is_number w = true /\ is_number r = true /\
    s = (pre ++ token n w r ++ post)%string.

(** The longest run of digits at the head of [s], and what follows it. *)
Fixpoint span_digits (s : string) : string * string :=
  match s with
  | String c s' =>
      if Py.is_digit c then
        let '(ds, rest) := span_digits s' in (String c ds, rest)
      else (EmptyString, s)
  | EmptyString => (EmptyString, EmptyString)
  end.

Fixpoint strip_prefix (p s : string) : option string :=
  match p, s with
  | EmptyString, _ => Some s
  | String a p', String b s' => if Ascii.eqb a b then strip_prefix p' s' else None
  | String _ _, EmptyString => None
  end.

(** Reading one token at the head of [s] without a regular expression:
    the three numbers, each as long as possible, and the text that follows. *)
Definition token_at (s : string) : option (list string * string) :=
  match strip_prefix "Set " s with
  | Some s1 =>
      let '(n, s2) := span_digits s1 in
      match n, strip_prefix " : " s2 with
      | String _ _, Some s3 =>
          let '(w, s4) := span_digits s3 in
          match w, strip_prefix "x" s4 with
          | String _ _, Some s5 =>
              let '(r, s6) := span_digits s5 in
              match r with
              | String _ _ => Some ([n; w; r], s6)
              | EmptyString => None
              end
          | _, _ => None
          end
      | _, _ => None
      end
  | None => None
  end.

(** Whether a token can be read at some position of [s]. *)
Fixpoint token_occurs_b (s : string) : bool :=
  match token_at s with
  | Some _ => true
  | None =>
      match s with
      | String _ s' => token_occurs_b s'
      | EmptyString => false
      end
  end.

(** The record that the token ["Set <n> : <w>x<r>"] stands for: the weight
    is the [float] of the captured integer. *)
Definition record_of (n w r : string) : LiftingLog :=
  {| set_number := decimal_value n;
     weight := Py.float_of_Z (decimal_value w);
     reps := decimal_value r |}.

(** A log entry: a token and the text between it and the next token. *)
Definition entry : Type := string * string * string * string.

Definition entry_record (e : entry) : LiftingLog :=
  let '(n, w, r, _) := e in record_of n w r.

(** The text after a token: it does not go on with a digit, which would
    belong to the token's last number, and holds no token of its own. *)
Definition gap_ok (gap : string) : Prop :=
  starts_with_digit gap = false /\ ~ token_occurs gap.

(** A well-formed token whose set number and reps are within the limit of
    the conversion to [int], followed by such a text. *)
Definition entry_ok (e : entry) : Prop :=
  let '(n, w, r, gap) := e in
  is_number n = true /\ is_number w = true /\ is_number r = true /\ gap_ok gap /\
  (String.length n <= Py.int_max_str_digits)%nat /\
  (String.length r <= Py.int_max_str_digits)%nat.

(** A token occurs in [s] whose set number or reps has more digits than
    [int] converts. *)
Definition long_token_occurs (s : string) : Prop :=
  exists pre n w r post,
    is_number n = true /\ is_number w = true /\ is_number r = true /\
    s = (pre ++ token n w r ++ post)%string /\
    (Py.int_max_str_digits < String.length n \/
     Py.int_max_str_digits < String.length r)%nat.

(** A token occurs in [s] whose set number or reps is [10^4300] or more:
    too long for [int] even without the zeros in front. *)
Definition huge_token_occurs (s : string) : Prop :=
  exists pre n w r post,
    is_number n = true /\ is_number w = true /\ is_number r = true /\
    s = (pre ++ token n w r ++ post)%string /\
    (10 ^ Z.of_nat Py.int_max_str_digits <= decimal_value n \/
     10 ^ Z.of_nat Py.int_max_str_digits <= decimal_value r)%Z.

(** The input made of the entries, in order. *)
Fixpoint log_text (entries : list entry) : string :=
  match entries with
  | (n, w, r, gap) :: es => (token n w r ++ gap ++ log_text es)%string
  | [] => EmptyString
  end.

(** *** Floats as numbers *)

(** The integer that a float is equal to, if it is one. *)
Definition float_exact_Z (f : spec_float) : option Z :=
  match f with
  | S754_zero _ => Some 0%Z
  | S754_finite s m e =>
      if (0 <=? e)%Z then Some (cond_Zopp s (Zpos m * 2 ^ e))
      else if (Zpos m mod 2 ^ (- e) =? 0)%Z then Some (cond_Zopp s (Zpos m / 2 ^ (- e)))
      else None
  | _ => None
  end.

(** A float that is zero, a positive number or plus infinity; not a NaN. *)
Definition float_nonneg (f : spec_float) : bool :=
  match f with
  | S754_zero s | S754_infinity s | S754_finite s _ _ => negb s
  | S754_nan => false
  end.

(** [n] zeros *)
Fixpoint zeros (n : nat) : string :=
  match n with
  | O => EmptyString
  | S n' => String "0" (zeros n')
  end.

(** *** Trimmed text *)

Definition first_char (s : string) : option ascii :=
  match s with
  | String c _ => Some c
  | EmptyString => None
  end.

Fixpoint last_char (s : string) : option ascii :=
  match s with
  | String c EmptyString => Some c
  | String _ s' => last_char s'
  | EmptyString => None
  end.

(** The text neither starts nor ends with white space. *)
Definition trimmed (s : string) : bool :=
  (match first_char s with Some c => negb (Py.isspace c) | None => true end
   && match last_char s with Some c => negb (Py.isspace c) | None => true end)%bool.

(** The text is made of white space only. *)
Fixpoint all_space (s : string) : bool :=
  match s with
  | String c s' => (Py.isspace c && all_space s')%bool
  | EmptyString => true
  end.

(** [t] is [text] without the white space at its two ends. *)
Definition trim_of (text t : string) : Prop :=
  trimmed t = true /\
  exists l r,
    all_space l = true /\ all_space r = true /\ text = (l ++ t ++ r)%string.

(** *** Pages *)

(** The request that [get_workout_from_date] sends. *)
Definition request_of (self : JEFITClient) (username date : string) : Httpx.Request :=
  {| Httpx.url := logs_base_url (url_config self);
     Httpx.params := [("xid", username); ("dd", date)] |}.

(** The element carries the given [id]. *)
Definition has_id (i : string) (e : Bs4.PageElement) : bool :=
  match e with
  | Bs4.Tag _ attrs _ => Bs4.matches_value (Bs4.get "id" attrs) i
  | _ => false
  end.

(** The "log list" container of a page, if there is one. *)
Definition log_list (soup : Bs4.PageElement) : option Bs4.PageElement :=
  Bs4.find None [("id", "logList1")] soup.

(** The exercise blocks of the container, in document order. *)
Definition exercise_blocks (workout : Bs4.PageElement) : list Bs4.PageElement :=
  Bs4.find_all (Some "div") [("class", "exercise-block")] workout.

(** The "fixed log bar" of an exercise block, if there is one. *)
Definition log_bar (exercise : Bs4.PageElement) : option Bs4.PageElement :=
  Bs4.find (Some "div") [("class", "fixedLogBar")] exercise.

(** The "log bar blocks" of a fixed log bar, in document order. *)
Definition log_bar_blocks (bar : Bs4.PageElement) : list Bs4.PageElement :=
  Bs4.find_all (Some "div") [("class", "fixedLogBarBlock align-top")] bar.

(** The first link inside a block, if there is one. *)
Definition first_link (block : Bs4.PageElement) : option Bs4.PageElement :=
  Bs4.find (Some "a") [] block.

(** The record [rec] is what the specification reads off the exercise
    block: four sub-blocks (picture, name, one-rep-max, logs text), the
    trimmed text of the first link of the name block, the numeric value of
    the text of the one-rep-max block, the parser's output on the text of
    the logs block. *)
Definition describes (exercise : Bs4.PageElement) (rec : ExerciseBlock) : Prop :=
  exists bar picture name onerepmax liftinglogs a,
    log_bar exercise = Some bar /\
    log_bar_blocks bar = [picture; name; onerepmax; liftinglogs] /\
    first_link name = Some a /\
    trim_of (Bs4.get_text a) (exercise_name rec) /\
    Py.float (Bs4.get_text onerepmax) = Some (one_rep_max rec) /\
    parse_to_lifting_log (Bs4.get_text liftinglogs) = Ok (lifting_logs rec).

(** An exercise block of the expected shape: a fixed log bar with four
    blocks, a link in the second, a text that [float] accepts in the third
    and a text that the parser accepts in the fourth. *)
Definition well_formed (exercise : Bs4.PageElement) : Prop :=
  exists bar picture name onerepmax liftinglogs a v logs,
    log_bar exercise = Some bar /\
    log_bar_blocks bar = [picture; name; onerepmax; liftinglogs] /\
    first_link name = Some a /\
    Py.float (Bs4.get_text onerepmax) = Some v /\
    parse_to_lifting_log (Bs4.get_text liftinglogs) = Ok logs.

(** *** Fixtures *)

Definition log_bar_block (contents : list Bs4.PageElement) : Bs4.PageElement :=
  Bs4.Tag "div" [("class", Bs4.AttrList ["fixedLogBarBlock"; "align-top"])] contents.

Definition exercise_block (blocks : list Bs4.PageElement) : Bs4.PageElement :=
  Bs4.Tag "div" [("class", Bs4.AttrList ["exercise-block"])]
    [Bs4.Tag "div" [("class", Bs4.AttrList ["fixedLogBar"])] blocks].

Definition page (exercises : list Bs4.PageElement) : Bs4.PageElement :=
  Bs4.Tag "[document]" [] [Bs4.Tag "div" [("id", Bs4.AttrStr "logList1")] exercises].

(** The four sub-blocks ["<img>"], ["<a>Bench Press</a>"], ["225"] and
    ["Set 1 : 225x5 Set 2 : 225x5"]. *)
Definition bench_press_block : Bs4.PageElement :=
  exercise_block
    [log_bar_block [Bs4.Tag "img" [] []];
     log_bar_block [Bs4.Tag "a" [] [Bs4.NavigableString "Bench Press"]];
     log_bar_block [Bs4.NavigableString "225"];
     log_bar_block [Bs4.NavigableString "Set 1 : 225x5 Set 2 : 225x5"]].

(** The same with the logs block missing: three sub-blocks. *)
Definition three_blocks : Bs4.PageElement :=
  exercise_block
    [log_bar_block [Bs4.Tag "img" [] []];
     log_bar_block [Bs4.Tag "a" [] [Bs4.NavigableString "Bench Press"]];
     log_bar_block [Bs4.NavigableString "225"]].

(** The same with the name as plain text: four sub-blocks, no link. *)
Definition no_link_block : Bs4.PageElement :=
  exercise_block
    [log_bar_block [Bs4.Tag "img" [] []];
     log_bar_block [Bs4.NavigableString "Bench Press"];
     log_bar_block [Bs4.NavigableString "225"];
     log_bar_block [Bs4.NavigableString "Set 1 : 225x5 Set 2 : 225x5"]].

Definition bench_press : ExerciseBlock :=
  {| exercise_name := "Bench Press";
     one_rep_max := Py.float_of_Z 225;
     lifting_logs :=
       [{| set_number := 1; weight := Py.float_of_Z 225; reps := 5 |};
        {| set_number := 2; weight := Py.float_of_Z 225; reps := 5 |}] |}.

Definition client : JEFITClient := {| url_config := DEFAULT_JEFIT_CONFIG |}.

(** A site that answers every request with the given status. *)
Definition site (status : Z) : Httpx.Net :=
  {| Httpx.server := fun _ _ =>
       Some {| Httpx.status_code := status; Httpx.content := EmptyString |};
     Httpx.sent := [] |}.

(** *** The docstring's format *)

(** One set written as in the docstring of [parse_to_lifting_log]:
    ["Set 1 : 70x5"]. *)
Definition log_line (t : N * N * N) : string :=
  let '(a, b, c) := t in token (number_text a) (number_text b) (number_text c).

(** The sets written one after the other with single spaces between them:
    ["Set 1 : 70x5 Set 2 : 70x5 Set 3 : 70x5"]. *)
Definition format_logs (l : list (N * N * N)) : string :=
  Py.join " " (map log_line l).

(** The record of a set. *)
Definition log_of (t : N * N * N) : LiftingLog :=
  let '(a, b, c) := t in
  {| set_number := Z.of_N a; weight := Py.float_of_Z (Z.of_N b); reps := Z.of_N c |}.

(** *** Failures of an exercise block *)

(** Why an exercise block is not of the expected shape, and what the loop
    body raises on it. *)
Inductive block_failure (exercise : Bs4.PageElement) : exn -> Prop :=
| no_log_bar :
    log_bar exercise = None ->
    block_failure exercise AttributeError
| wrong_count (bar : Bs4.PageElement) :
    log_bar exercise = Some bar ->
    length (log_bar_blocks bar) <> 4 ->
    block_failure exercise AssertionError
| no_link (bar picture name onerepmax liftinglogs : Bs4.PageElement) :
    log_bar exercise = Some bar ->
    log_bar_blocks bar = [picture; name; onerepmax; liftinglogs] ->
    first_link name = None ->
    block_failure exercise AttributeError
| no_number (bar picture name onerepmax liftinglogs a : Bs4.PageElement) :
    log_bar exercise = Some bar ->
    log_bar_blocks bar = [picture; name; onerepmax; liftinglogs] ->
    first_link name = Some a ->
    Py.float (Bs4.get_text onerepmax) = None ->
    block_failure exercise ValueError
| invalid_logs (bar picture name onerepmax liftinglogs a : Bs4.PageElement)
    (v : spec_float) :
    log_bar exercise = Some bar ->
    log_bar_blocks bar = [picture; name; onerepmax; liftinglogs] ->
    first_link name = Some a ->
    Py.float (Bs4.get_text onerepmax) = Some v ->
    parse_to_lifting_log (Bs4.get_text liftinglogs) = Raise ValidationError ->
    block_failure exercise ValidationError.

(** *** The script *)

(** [JEFITClient(url_config)], and [JEFITClient()] when no configuration is
    given. *)
Definition JEFITClient_init (url_config_ : option JEFITClientConfig) : JEFITClient :=
  {| url_config :=
       match url_config_ with
       | Some c => c
       | None => DEFAULT_JEFIT_CONFIG
       end |}.

Definition newline : string := String (ascii_of_nat 10) EmptyString.

(** [print(text)]: the text and a line end are added to the output. *)
Definition print (text stdout : string) : string := (stdout ++ text ++ newline)%string.

Section Main.

Variable BeautifulSoup : string -> Bs4.PageElement.

(** [str(r)] for a record [r], which [print(r)] writes: the rendering of
    pydantic is left open. *)
Variable str : ExerciseBlock -> string.

(** The block under [if __name__ == "__main__"]: the state is the network
    and the text written so far. *)
Definition main (net : Httpx.Net) (stdout : string)
    : result unit * Httpx.Net * string :=
  let cli := JEFITClient_init None in
  let '(results, net) :=
    get_workout_from_date BeautifulSoup cli "wstipp" "2023-01-14" net in
  match results with
  | Ok results =>
      (Ok tt, net,
       fold_left (fun out r => print EmptyString (print (str r) out)) results stdout)
  | Raise e => (Raise e, net, stdout)
  end.

End Main.

(** *** More fixtures *)

(** An exercise block without a fixed log bar. *)
Definition no_bar_block : Bs4.PageElement :=
  Bs4.Tag "div" [("class", Bs4.AttrList ["exercise-block"])]
    [Bs4.Tag "p" [] [Bs4.NavigableString "Bench Press"]].

(** The bench-press block with ["N/A"] as one-rep-max. *)
Definition no_number_block : Bs4.PageElement :=
  exercise_block
    [log_bar_block [Bs4.Tag "img" [] []];
     log_bar_block [Bs4.Tag "a" [] [Bs4.NavigableString "Bench Press"]];
     log_bar_block [Bs4.NavigableString "N/A"];
     log_bar_block [Bs4.NavigableString "Set 1 : 225x5 Set 2 : 225x5"]].

(** The bench-press block with a link that holds white space only. *)
Definition blank_name_block : Bs4.PageElement :=
  exercise_block
    [log_bar_block [Bs4.Tag "img" [] []];
     log_bar_block [Bs4.Tag "a" [] [Bs4.NavigableString "  "]];
     log_bar_block [Bs4.NavigableString "225"];
     log_bar_block [Bs4.NavigableString "Set 1 : 225x5 Set 2 : 225x5"]].

(** The bench-press block with white space around the name and around
    the one-rep-max. *)
Definition padded_block : Bs4.PageElement :=
  exercise_block
    [log_bar_block [Bs4.Tag "img" [] []];
     log_bar_block
       [Bs4.NavigableString " ";
        Bs4.Tag "a" [] [Bs4.NavigableString "  Bench Press "; Bs4.Comment "name"]];
     log_bar_block [Bs4.NavigableString " 225 "];
     log_bar_block [Bs4.NavigableString "Set 1 : 225x5 Set 2 : 225x5"]].

(** The bench-press block with a unit separator, which [str.strip] removes
    and [float] does not, in front of the one-rep-max. *)
Definition separator_block : Bs4.PageElement :=
  exercise_block
    [log_bar_block [Bs4.Tag "img" [] []];
     log_bar_block [Bs4.Tag "a" [] [Bs4.NavigableString "Bench Press"]];
     log_bar_block [Bs4.NavigableString (String (ascii_of_nat 31) "225")];
     log_bar_block [Bs4.NavigableString "Set 1 : 225x5 Set 2 : 225x5"]].

(** The bench-press block with a set number of 4301 digits in its logs. *)
Definition long_set_block : Bs4.PageElement :=
  exercise_block
    [log_bar_block [Bs4.Tag "img" [] []];
     log_bar_block [Bs4.Tag "a" [] [Bs4.NavigableString "Bench Press"]];
     log_bar_block [Bs4.NavigableString "225"];
     log_bar_block [Bs4.NavigableString ("Set 1" ++ zeros 4300 ++ " : 225x5")%string]].

Definition log_list_of (exercises : list Bs4.PageElement) : Bs4.PageElement :=
  Bs4.Tag "div" [("id", Bs4.AttrStr "logList1")] exercises.

Definition ok_response : Httpx.Response :=
  {| Httpx.status_code := 200; Httpx.content := EmptyString |}.

(** * Proofs *)

(** ** Text *)

Section Text.

Lemma append_nil_r (s : string) : (s ++ EmptyString)%string = s.
Proof. induction s as [|c s IH]; simpl; [reflexivity | now rewrite IH]. Qed.

Lemma append_assoc (a b c : string) : ((a ++ b) ++ c)%string = (a ++ (b ++ c))%string.
Proof. induction a as [|x a IH]; simpl; [reflexivity | now rewrite IH]. Qed.

Lemma length_append (a b : string) :
  String.length (a ++ b)%string = String.length a + String.length b.
Proof. induction a as [|x a IH]; simpl; [reflexivity | now rewrite IH]. Qed.

(** Two ways of cutting one text: one cut is inside the other's first part. *)
Lemma append_eq_append (a b c d : string) :
  (a ++ b)%string = (c ++ d)%string ->
  exists m, (a = (c ++ m)%string /\ d = (m ++ b)%string)
         \/ (c = (a ++ m)%string /\ b = (m ++ d)%string).
Proof.
  revert c. induction a as [|x a IH]; intros c H; simpl in H.
  - exists c. right. split; [reflexivity | exact H].
  - destruct c as [|y c]; simpl in H.
    + exists (String x a). left. split; [reflexivity | now rewrite <- H].
    + injection H as -> H. destruct (IH _ H) as [m [[-> ->] | [-> ->]]];
        exists m; [left | right]; split; reflexivity.
Qed.

Lemma strip_prefix_append (p s : string) : strip_prefix p (p ++ s)%string = Some s.
Proof.
  induction p as [|c p IH]; simpl; [reflexivity | now rewrite Ascii.eqb_refl].
Qed.

Lemma strip_prefix_inv (p s t : string) :
  strip_prefix p s = Some t -> s = (p ++ t)%string.
Proof.
  revert s. induction p as [|c p IH]; intros s H; simpl in H.
  - now injection H as ->.
  - destruct s as [|d s]; [discriminate |].
    destruct (Ascii.eqb_spec c d) as [-> | _]; [| discriminate].
    simpl. f_equal. now apply IH.
Qed.

End Text.

(** ** Digits *)

(** The cases of a character: all 256 of them, or the ten left by a
    hypothesis [H] that says it is a digit. *)
Ltac char_cases c := destruct c as [[] [] [] [] [] [] [] []].
Ltac digit_cases c H := char_cases c; try discriminate H.

Create HintDb numbers.

Section Digits.

Lemma all_digits_append (a b : string) :
  all_digits (a ++ b)%string = (all_digits a && all_digits b)%bool.
Proof.
  induction a as [|c a IH]; simpl; [reflexivity |].
  now rewrite IH, andb_assoc.
Qed.

Lemma is_number_cons (s : string) :
  is_number s = true ->
  exists c t, s = String c t /\ Py.is_digit c = true /\ all_digits t = true.
Proof.
  destruct s as [|c t]; simpl; [discriminate |].
  intros H. apply andb_prop in H. exists c, t. tauto.
Qed.

Lemma is_number_all_digits (s : string) : is_number s = true -> all_digits s = true.
Proof. destruct s; [discriminate | trivial]. Qed.

Lemma digit_val_range (c : ascii) :
  Py.is_digit c = true -> (0 <= Py.digit_val c <= 9)%Z.
Proof.
  intros H. digit_cases c H; vm_compute; split; discriminate.
Qed.

Lemma decimal_from_nonneg (s : string) (acc : Z) :
  all_digits s = true -> (0 <= acc)%Z -> (0 <= decimal_from acc s)%Z.
Proof.
  revert acc. induction s as [|c s IH]; intros acc H Hacc; cbn [decimal_from all_digits] in *; [exact Hacc |].
  apply andb_prop in H. destruct H as [Hc Hs].
  apply IH; [exact Hs |]. pose proof (digit_val_range _ Hc). lia.
Qed.

Lemma decimal_value_nonneg (s : string) :
  all_digits s = true -> (0 <= decimal_value s)%Z.
Proof. intros H. apply decimal_from_nonneg; [exact H | lia]. Qed.

Lemma all_digits_string_of_uint (d : Decimal.uint) :
  all_digits (NilEmpty.string_of_uint d) = true.
Proof. induction d; cbn [NilEmpty.string_of_uint all_digits]; auto. Qed.

Lemma decimal_from_of_uint_acc (d : Decimal.uint) (acc : positive) :
  decimal_from (Zpos acc) (NilEmpty.string_of_uint d) = Zpos (Pos.of_uint_acc d acc).
Proof.
  revert acc. induction d as [|d IH|d IH|d IH|d IH|d IH|d IH|d IH|d IH|d IH|d IH];
    intros acc; cbn [NilEmpty.string_of_uint decimal_from Pos.of_uint_acc];
    [reflexivity | ..]; rewrite <- IH; f_equal;
    match goal with
    | |- context [Py.digit_val ?c] =>
        let v := eval vm_compute in (Py.digit_val c) in
        change (Py.digit_val c) with v
    end; lia.
Qed.

Lemma decimal_from_of_uint (d : Decimal.uint) :
  decimal_from 0 (NilEmpty.string_of_uint d) = Z.of_N (Pos.of_uint d).
Proof.
  induction d as [|d IH|d IH|d IH|d IH|d IH|d IH|d IH|d IH|d IH|d IH];
    cbn [NilEmpty.string_of_uint decimal_from Pos.of_uint];
    [reflexivity | exact IH | ..];
    cbn [Z.of_N]; rewrite <- decimal_from_of_uint_acc; f_equal.
Qed.

(** Reading back an integer written in decimal gives the integer. *)
Lemma number_text_value (n : N) : decimal_value (number_text n) = Z.of_N n.
Proof.
  unfold decimal_value, number_text. rewrite decimal_from_of_uint.
  f_equal. apply (DecimalN.Unsigned.of_to n).
Qed.

Lemma number_text_is_number (n : N) : is_number (number_text n) = true.
Proof.
  unfold number_text. destruct n as [|p]; [reflexivity |]. cbn [N.to_uint].
  pose proof (DecimalPos.Unsigned.to_uint_nonnil p) as H.
  pose proof (all_digits_string_of_uint (Pos.to_uint p)) as Hd.
  destruct (Pos.to_uint p); [congruence | ..]; exact Hd.
Qed.

Lemma digit_not_space_literal (c : ascii) :
  Py.is_digit c = true -> Py.isspace_literal c = false.
Proof.
  char_cases c; vm_compute; intros H; (reflexivity || discriminate H).
Qed.

(** A run of digits has no space for [int] and [float] to skip. *)
Lemma lstrip_literal_number (s : string) :
  is_number s = true -> Py.lstrip_literal s = s.
Proof.
  intros H. destruct (is_number_cons _ H) as (c & t & -> & Hc & _).
  simpl. now rewrite (digit_not_space_literal _ Hc).
Qed.

Lemma rstrip_literal_digits (s : string) :
  all_digits s = true -> Py.rstrip_literal s = s.
Proof.
  induction s as [|c s IH]; simpl; [reflexivity |].
  intros H. apply andb_prop in H. destruct H as [Hc Hs].
  rewrite (IH Hs). destruct s; [now rewrite (digit_not_space_literal _ Hc) | reflexivity].
Qed.

Lemma strip_literal_number (s : string) :
  is_number s = true -> Py.strip_literal s = s.
Proof.
  intros H. unfold Py.strip_literal. rewrite (lstrip_literal_number _ H).
  apply rstrip_literal_digits, is_number_all_digits, H.
Qed.

Lemma digit_not_sign (c : ascii) (s : string) :
  Py.is_digit c = true -> Py.sign (String c s) = (false, String c s).
Proof.
  intros H. unfold Py.sign.
  destruct (Ascii.eqb_spec c "+") as [-> | H1]; [discriminate H |].
  destruct (Ascii.eqb_spec c "-") as [-> | H2]; [discriminate H |].
  char_cases c; try reflexivity; congruence.
Qed.

Lemma digitpart_digit (c : ascii) (s : string) (acc : Z) (n : nat) (prev : bool) :
  Py.is_digit c = true ->
  Py.digitpart acc n prev (String c s)
  = Py.digitpart (10 * acc + Py.digit_val c) (S n) true s.
Proof. intros H. cbn [Py.digitpart]. now rewrite H. Qed.

Lemma digitpart_digits (s : string) (acc : Z) (n : nat) (prev : bool) :
  is_number s = true ->
  Py.digitpart acc n prev s = Some (decimal_from acc s, n + String.length s, EmptyString).
Proof.
  intros H. apply is_number_cons in H. destruct H as (c & t & -> & Hc & Ht).
  revert acc n prev c Hc. induction t as [|d t IH]; intros acc n prev c Hc;
    rewrite (digitpart_digit _ _ _ _ _ Hc).
  - cbn. do 3 f_equal. lia.
  - cbn [all_digits] in Ht. apply andb_prop in Ht. destruct Ht as [Hd Ht].
    rewrite (IH Ht _ _ _ _ Hd). cbn [decimal_from String.length]. do 3 f_equal. lia.
Qed.

(** [int] of a run of digits is the integer it denotes, up to the limit on
    the number of digits, and fails past it. *)
Lemma int_run (s : string) :
  is_number s = true ->
  Py.int s =
  if (String.length s <=? Py.int_max_str_digits)%nat then Some (decimal_value s)
  else None.
Proof.
  intros H. unfold Py.int. rewrite (strip_literal_number _ H).
  destruct (is_number_cons _ H) as (c & t & -> & Hc & _).
  rewrite (digit_not_sign _ _ Hc), (digitpart_digits _ _ _ _ H). reflexivity.
Qed.

Lemma int_number (s : string) :
  is_number s = true -> (String.length s <= Py.int_max_str_digits)%nat ->
  int_validator s = Some (decimal_value s).
Proof.
  intros H Hlen. unfold int_validator. rewrite (int_run _ H).
  apply Nat.leb_le in Hlen. unfold Py.int_max_str_digits in *. now rewrite Hlen.
Qed.

Lemma int_long (s : string) :
  is_number s = true -> (Py.int_max_str_digits < String.length s)%nat ->
  int_validator s = None.
Proof.
  intros H Hlen. unfold int_validator. apply Nat.leb_gt in Hlen.
  unfold Py.int_max_str_digits in Hlen. now rewrite Hlen.
Qed.

Lemma int_validator_run (s : string) :
  is_number s = true ->
  int_validator s =
  if (String.length s <=? Py.int_max_str_digits)%nat then Some (decimal_value s)
  else None.
Proof.
  intros H. destruct (Nat.leb_spec (String.length s) Py.int_max_str_digits) as [Hle | Hgt].
  - now apply int_number.
  - now apply int_long.
Qed.

Lemma decimal_from_bound (s : string) (acc : Z) :
  all_digits s = true -> (0 <= acc)%Z ->
  (decimal_from acc s < (acc + 1) * 10 ^ Z.of_nat (String.length s))%Z.
Proof.
  revert acc. induction s as [|c s IH]; intros acc H Hacc.
  - cbn. lia.
  - cbn [all_digits] in H. apply andb_prop in H. destruct H as [Hc Hs].
    pose proof (digit_val_range _ Hc) as Hd.
    cbn [decimal_from String.length]. rewrite Nat2Z.inj_succ, Z.pow_succ_r by lia.
    assert (Hacc' : (0 <= 10 * acc + Py.digit_val c)%Z) by lia.
    specialize (IH _ Hs Hacc').
    assert (0 < 10 ^ Z.of_nat (String.length s))%Z by (apply Z.pow_pos_nonneg; lia).
    nia.
Qed.

(** A run of digits that denotes [10^k] or more has more than [k] digits. *)
Lemma decimal_value_long (s : string) (k : nat) :
  all_digits s = true -> (10 ^ Z.of_nat k <= decimal_value s)%Z ->
  (k < String.length s)%nat.
Proof.
  intros H Hk. destruct (Nat.lt_ge_cases k (String.length s)) as [Hlt | Hge]; [exact Hlt |].
  assert (Hz : (0 <= 0)%Z) by lia.
  pose proof (decimal_from_bound s 0 H Hz) as Hb. fold (decimal_value s) in Hb.
  assert (10 ^ Z.of_nat (String.length s) <= 10 ^ Z.of_nat k)%Z
    by (apply Z.pow_le_mono_r; lia).
  lia.
Qed.

End Digits.

#[local] Hint Resolve is_number_all_digits decimal_value_nonneg
  number_text_is_number : numbers.

Section FloatOfNumber.

Lemma float_of_decimal_integer (v : Z) :
  Py.float_of_decimal false v 0 = Py.float_of_Z v.
Proof.
  unfold Py.float_of_decimal, Py.float_of_Z.
  destruct (Z.eqb_spec v 0) as [-> | _]; [reflexivity |].
  cbn [Z.leb Z.compare cond_Zopp]. now rewrite Z.pow_0_r, Z.mul_1_r.
Qed.

Lemma number_digits (s : string) :
  is_number s = true ->
  Py.number s = Some (decimal_value s, 0, EmptyString).
Proof.
  intros H. pose proof (digitpart_digits s 0 0 false H) as E.
  destruct (is_number_cons _ H) as (c & t & -> & Hc & _).
  unfold Py.number. rewrite E.
  digit_cases c Hc; reflexivity.
Qed.

Lemma lower_digit (c : ascii) : Py.is_digit c = true -> Py.lower c = c.
Proof.
  intros H. digit_cases c H; reflexivity.
Qed.

(** [float] of a run of digits is the float of the integer it denotes. *)
Lemma float_number (s : string) :
  is_number s = true -> Py.float s = Some (Py.float_of_Z (decimal_value s)).
Proof.
  intros H. pose proof (number_digits _ H) as En.
  unfold Py.float. rewrite (strip_literal_number _ H).
  destruct (is_number_cons _ H) as (c & t & -> & Hc & _).
  rewrite (digit_not_sign _ _ Hc). cbv beta iota zeta. rewrite En.
  cbn [Py.lower_str]. rewrite (lower_digit _ Hc).
  replace (Py.exponent EmptyString) with (Some 0%Z) by reflexivity.
  replace (0 - Z.of_nat 0)%Z with 0%Z by reflexivity.
  rewrite float_of_decimal_integer.
  digit_cases c Hc; reflexivity.
Qed.

End FloatOfNumber.

(** ** The pattern against a direct reading of the token *)

Section Matching.

Lemma span_digits_spec (s ds rest : string) :
  span_digits s = (ds, rest) ->
  s = (ds ++ rest)%string /\ all_digits ds = true /\ starts_with_digit rest = false.
Proof.
  revert ds rest. induction s as [|c s IH]; intros ds rest H; cbn [span_digits] in H.
  - injection H as <- <-. now repeat split.
  - destruct (Py.is_digit c) eqn:Hc.
    + destruct (span_digits s) as [ds' rest'] eqn:E. injection H as <- <-.
      destruct (IH _ _ eq_refl) as (-> & Hd & Hr).
      cbn [all_digits append]. rewrite Hc, Hd. now repeat split.
    + injection H as <- <-. cbn. now rewrite Hc.
Qed.

Lemma span_digits_append (ds rest : string) :
  all_digits ds = true -> starts_with_digit rest = false ->
  span_digits (ds ++ rest)%string = (ds, rest).
Proof.
  intros Hd Hr. induction ds as [|c ds IH]; cbn [append].
  - destruct rest as [|c rest]; [reflexivity |]. cbn in *. now rewrite Hr.
  - cbn [all_digits] in Hd. apply andb_prop in Hd. destruct Hd as [Hc Hd].
    cbn [span_digits]. now rewrite Hc, (IH Hd).
Qed.

(** Where giving digits back cannot help, [\d+] takes the longest run of
    digits: either the rest of the pattern refuses a text that starts with a
    digit, or it never fails. *)
Lemma plus_digits_longest {R} (cont : string -> string -> option R) :
  (forall a c t, Py.is_digit c = true -> cont a (String c t) = None)
  \/ (forall a t, cont a t <> None) ->
  forall s acc,
    Re.plus_digits cont acc s =
    match span_digits s with
    | (EmptyString, _) => None
    | (ds, rest) => cont (acc ++ ds)%string rest
    end.
Proof.
  intros Hcont. induction s as [|c s IH]; intros acc; [reflexivity |].
  cbn [Re.plus_digits span_digits]. destruct (Py.is_digit c) eqn:Hc; [| reflexivity].
  rewrite IH. destruct (span_digits s) as [ds rest] eqn:E.
  destruct (span_digits_spec _ _ _ E) as (-> & Hd & Hr).
  destruct ds as [|d ds].
  - reflexivity.
  - rewrite append_assoc. cbn [append].
    destruct (cont (acc ++ String c (String d ds))%string rest) eqn:E1; [reflexivity |].
    destruct Hcont as [H1 | H2].
    + apply H1. cbn [all_digits] in Hd. now apply andb_prop in Hd.
    + now apply H2 in E1.
Qed.

Lemma match_here_lits (l : string) (p : Re.regex) (gs : list string) (s : string) :
  Re.match_here (Re.lits l ++ p) gs s =
  match strip_prefix l s with
  | Some s' => Re.match_here p gs s'
  | None => None
  end.
Proof.
  revert s. induction l as [|c l IH]; intros s; [reflexivity |].
  cbn [Re.lits app Re.match_here strip_prefix]. destruct s as [|d s]; [reflexivity |].
  destruct (Ascii.eqb c d); [apply IH | reflexivity].
Qed.

Lemma match_here_lit_digit (l : string) (c0 : ascii) (p : Re.regex)
    (gs : list string) (c : ascii) (t : string) :
  Py.is_digit c0 = false -> Py.is_digit c = true ->
  Re.match_here (Re.lits (String c0 l) ++ p) gs (String c t) = None.
Proof.
  intros H0 Hc. cbn [Re.lits app Re.match_here].
  destruct (Ascii.eqb_spec c0 c) as [-> | _]; [congruence | reflexivity].
Qed.

(** The compiled pattern reads a token exactly as [token_at] does: the
    backtracking of the three [\d+] never changes the outcome. *)
Lemma match_here_pattern (s : string) : Re.match_here pattern [] s = token_at s.
Proof.
  unfold pattern, token_at. rewrite match_here_lits.
  destruct (strip_prefix "Set " s) as [s1 |]; [| reflexivity].
  cbn [app Re.match_here]. rewrite plus_digits_longest
    by (left; intros; now apply (match_here_lit_digit ":" " ")).
  destruct (span_digits s1) as [n s2]. destruct n as [|c n]; [reflexivity |].
  cbn [append]. rewrite (match_here_lits " : ").
  destruct (strip_prefix " : " s2) as [s3 |]; [| reflexivity].
  cbn [app Re.match_here]. rewrite plus_digits_longest
    by (left; intros; now apply (match_here_lit_digit EmptyString "x")).
  destruct (span_digits s3) as [w s4]. destruct w as [|d w]; [reflexivity |].
  cbn [append]. rewrite (match_here_lits "x").
  destruct (strip_prefix "x" s4) as [s5 |]; [| reflexivity].
  cbn [app Re.match_here]. rewrite plus_digits_longest by (right; discriminate).
  destruct (span_digits s5) as [r s6]. destruct r as [|e r]; reflexivity.
Qed.

Lemma is_number_digits (c : ascii) (s : string) :
  all_digits (String c s) = true -> is_number (String c s) = true.
Proof. trivial. Qed.

Lemma token_at_inv (s : string) (gs : list string) (rest : string) :
  token_at s = Some (gs, rest) ->
  exists n w r,
    gs = [n; w; r] /\ is_number n = true /\ is_number w = true /\ is_number r = true /\
    s = (token n w r ++ rest)%string /\ starts_with_digit rest = false.
Proof.
  unfold token_at. intros H.
  destruct (strip_prefix "Set " s) as [s1 |] eqn:E1; [| discriminate].
  destruct (span_digits s1) as [n s2] eqn:En. destruct n as [|c n]; [discriminate |].
  destruct (strip_prefix " : " s2) as [s3 |] eqn:E2; [| discriminate].
  destruct (span_digits s3) as [w s4] eqn:Ew. destruct w as [|d w]; [discriminate |].
  destruct (strip_prefix "x" s4) as [s5 |] eqn:E3; [| discriminate].
  destruct (span_digits s5) as [r s6] eqn:Er. destruct r as [|e r]; [discriminate |].
  injection H as <- <-.
  apply strip_prefix_inv in E1, E2, E3.
  destruct (span_digits_spec _ _ _ En) as (-> & Hn & _).
  destruct (span_digits_spec _ _ _ Ew) as (-> & Hw & _).
  destruct (span_digits_spec _ _ _ Er) as (-> & Hr & Hrest).
  exists (String c n), (String d w), (String e r). repeat split; try assumption.
  subst. unfold token. now rewrite !append_assoc.
Qed.

Lemma token_unfold (n w r rest : string) :
  (token n w r ++ rest)%string
  = ("Set " ++ (n ++ (" : " ++ (w ++ ("x" ++ (r ++ rest))))))%string.
Proof. unfold token. now rewrite !append_assoc. Qed.

Lemma token_at_token (n w r rest : string) :
  is_number n = true -> is_number w = true -> is_number r = true ->
  starts_with_digit rest = false ->
  token_at (token n w r ++ rest)%string = Some ([n; w; r], rest).
Proof.
  intros Hn Hw Hr Hrest. rewrite token_unfold. unfold token_at.
  rewrite strip_prefix_append.
  rewrite (span_digits_append n) by auto with numbers.
  rewrite strip_prefix_append.
  rewrite (span_digits_append w) by auto with numbers.
  rewrite strip_prefix_append.
  rewrite (span_digits_append r) by auto with numbers.
  destruct n; [discriminate |]. destruct w; [discriminate |].
  destruct r; [discriminate |]. reflexivity.
Qed.

(** A token at the head of a text is read whatever follows it. *)
Lemma token_at_prefix (n w r post : string) :
  is_number n = true -> is_number w = true -> is_number r = true ->
  token_at (token n w r ++ post)%string <> None.
Proof.
  intros Hn Hw Hr. destruct (span_digits post) as [ds rest] eqn:E.
  destruct (span_digits_spec _ _ _ E) as (-> & Hd & Hrest).
  replace (token n w r ++ ds ++ rest)%string with (token n w (r ++ ds) ++ rest)%string
    by (unfold token; now rewrite !append_assoc).
  rewrite token_at_token; try assumption; [discriminate |].
  destruct (is_number_cons _ Hr) as (c & t & -> & Hc & Ht).
  cbn [append]. apply is_number_digits. cbn [all_digits].
  now rewrite Hc, all_digits_append, Ht, Hd.
Qed.

End Matching.

(** ** Searching a text for tokens *)

Section Searching.

Lemma search_pattern_step (s : string) :
  Re.search pattern s =
  match token_at s with
  | Some m => Some m
  | None =>
      match s with
      | String _ s' => Re.search pattern s'
      | EmptyString => None
      end
  end.
Proof. destruct s; cbn [Re.search]; now rewrite match_here_pattern. Qed.

(** A successful search stops at a token. *)
Lemma search_pattern_inv (s : string) (gs : list string) (rest : string) :
  Re.search pattern s = Some (gs, rest) ->
  exists pre t, s = (pre ++ t)%string /\ token_at t = Some (gs, rest).
Proof.
  induction s as [|c s IH]; rewrite search_pattern_step; intros H.
  - exists EmptyString, EmptyString. split; [reflexivity |].
    destruct (token_at EmptyString) as [m |]; [now injection H as -> | discriminate].
  - destruct (token_at (String c s)) as [m |] eqn:E.
    + injection H as ->. now exists EmptyString, (String c s).
    + destruct (IH H) as (pre & t & -> & Ht). now exists (String c pre), t.
Qed.

Lemma search_pattern_shorter (s : string) (gs : list string) (rest : string) :
  Re.search pattern s = Some (gs, rest) -> String.length rest < String.length s.
Proof.
  intros H. destruct (search_pattern_inv _ _ _ H) as (pre & t & -> & Ht).
  destruct (token_at_inv _ _ _ Ht) as (n & w & r & _ & _ & _ & _ & -> & _).
  rewrite token_unfold, !length_append. cbn. lia.
Qed.

(** For this pattern no match is empty, and [findall] is the plain loop. *)
Lemma findall_pattern (s : string) :
  Re.findall pattern s =
  match Re.search pattern s with
  | None => []
  | Some (gs, rest) => gs :: Re.findall pattern rest
  end.
Proof.
  rewrite Re.findall_equation.
  destruct (Re.search pattern s) as [[gs rest] |] eqn:E; [| reflexivity].
  apply search_pattern_shorter in E. now destruct (lt_dec _ _).
Qed.

Lemma search_none_occurs_b (s : string) :
  Re.search pattern s = None <-> token_occurs_b s = false.
Proof.
  induction s as [|c s IH]; rewrite search_pattern_step; cbn [token_occurs_b].
  - destruct (token_at EmptyString); split; congruence.
  - destruct (token_at (String c s)); [split; discriminate | exact IH].
Qed.

(** [token_occurs_b] decides [token_occurs]. *)
Lemma token_occurs_b_spec (s : string) : token_occurs_b s = true <-> token_occurs s.
Proof.
  split.
  - induction s as [|c s IH]; cbn [token_occurs_b].
    + destruct (token_at EmptyString) as [[gs rest] |] eqn:E; [| discriminate]. intros _.
      destruct (token_at_inv _ _ _ E) as (n & w & r & _ & Hn & Hw & Hr & Hs & _).
      now exists EmptyString, n, w, r, rest.
    + destruct (token_at (String c s)) as [[gs rest] |] eqn:E.
      * intros _.
        destruct (token_at_inv _ _ _ E) as (n & w & r & _ & Hn & Hw & Hr & Hs & _).
        now exists EmptyString, n, w, r, rest.
      * intros H. destruct (IH H) as (pre & n & w & r & post & Hn & Hw & Hr & ->).
        now exists (String c pre), n, w, r, post.
  - intros (pre & n & w & r & post & Hn & Hw & Hr & ->).
    induction pre as [|c pre IH]; cbn [append].
    + pose proof (token_at_prefix n w r post Hn Hw Hr) as H.
      destruct (token_at (token n w r ++ post)) eqn:E; [| congruence].
      destruct (token n w r ++ post)%string; cbn [token_occurs_b]; now rewrite E.
    + cbn [token_occurs_b]. rewrite IH. now destruct (token_at _).
Qed.

Lemma not_occurs_search (s : string) : ~ token_occurs s -> Re.search pattern s = None.
Proof.
  intros H. apply search_none_occurs_b.
  destruct (token_occurs_b s) eqn:E; [| reflexivity].
  now apply token_occurs_b_spec in E.
Qed.

Lemma has_char_append (c : ascii) (a b : string) :
  has_char c (a ++ b)%string = (has_char c a || has_char c b)%bool.
Proof.
  induction a as [|d a IH]; cbn [append has_char]; [reflexivity |].
  now rewrite IH, orb_assoc.
Qed.

Lemma digits_no_S (s : string) : all_digits s = true -> has_char "S" s = false.
Proof.
  induction s as [|c s IH]; cbn [all_digits has_char]; [reflexivity |].
  intros H. apply andb_prop in H. destruct H as [Hc Hs]. rewrite (IH Hs), orb_false_r.
  destruct (Ascii.eqb_spec "S"%char c) as [<- | _]; [discriminate Hc | reflexivity].
Qed.

(** After its first character a token has no [S]. *)
Lemma token_tail_no_S (n w r : string) :
  is_number n = true -> is_number w = true -> is_number r = true ->
  exists tail, token n w r = String "S" tail /\ has_char "S" tail = false.
Proof.
  intros Hn Hw Hr. exists ("et " ++ n ++ " : " ++ w ++ "x" ++ r)%string.
  split; [reflexivity |].
  rewrite !has_char_append.
  rewrite (digits_no_S n), (digits_no_S w), (digits_no_S r)
    by now apply is_number_all_digits.
  reflexivity.
Qed.

(** No token is read from inside a text that holds none, when the text
    that follows is empty or starts with [S]. *)
Lemma token_at_in_gap (g1 g2 t : string) :
  ~ token_occurs (g1 ++ g2)%string -> g2 <> EmptyString ->
  t = EmptyString \/ (exists u, t = String "S" u) ->
  token_at (g2 ++ t)%string = None.
Proof.
  intros Hgap Hg2 Ht. destruct (token_at (g2 ++ t)) as [[gs rest] |] eqn:E; [| reflexivity].
  exfalso. destruct (token_at_inv _ _ _ E) as (n & w & r & _ & Hn & Hw & Hr & Hs & _).
  destruct (append_eq_append _ _ _ _ Hs) as [m [[-> ->] | [Htok ->]]].
  - apply Hgap. now exists g1, n, w, r, m.
  - destruct m as [|c m].
    + rewrite append_nil_r in Htok. subst g2.
      apply Hgap. exists g1, n, w, r, EmptyString. now rewrite append_nil_r.
    + destruct Ht as [Ht | [u Ht]]; [discriminate Ht |]. injection Ht as -> _.
      destruct (token_tail_no_S n w r Hn Hw Hr) as (tail & Etail & Htail).
      rewrite Etail in Htok. destruct g2 as [|x g2]; [congruence |].
      injection Htok as _ ->. rewrite has_char_append in Htail.
      cbn in Htail. now rewrite orb_true_r in Htail.
Qed.

Lemma search_skip_gap (gap t : string) :
  ~ token_occurs gap ->
  t = EmptyString \/ (exists u, t = String "S" u) ->
  Re.search pattern (gap ++ t)%string = Re.search pattern t.
Proof.
  intros Hgap Ht.
  assert (H : forall g1 g2, gap = (g1 ++ g2)%string ->
            Re.search pattern (g2 ++ t)%string = Re.search pattern t).
  { intros g1 g2. revert g1. induction g2 as [|c g2 IH]; intros g1 E; [reflexivity |].
    rewrite search_pattern_step.
    rewrite (token_at_in_gap g1 (String c g2) t) by (subst; auto; discriminate).
    cbn [append]. apply (IH (g1 ++ String c EmptyString)%string).
    now rewrite E, append_assoc. }
  now apply (H EmptyString gap).
Qed.

Lemma findall_skip_gap (gap t : string) :
  ~ token_occurs gap ->
  t = EmptyString \/ (exists u, t = String "S" u) ->
  Re.findall pattern (gap ++ t)%string = Re.findall pattern t.
Proof.
  intros Hgap Ht. rewrite (findall_pattern (gap ++ t)), (findall_pattern t).
  now rewrite search_skip_gap.
Qed.

Lemma findall_token (n w r rest : string) :
  is_number n = true -> is_number w = true -> is_number r = true ->
  starts_with_digit rest = false ->
  Re.findall pattern (token n w r ++ rest)%string = [n; w; r] :: Re.findall pattern rest.
Proof.
  intros Hn Hw Hr Hrest. rewrite findall_pattern, search_pattern_step.
  now rewrite token_at_token.
Qed.

Lemma log_text_head (es : list entry) :
  log_text es = EmptyString \/ (exists u, log_text es = String "S" u).
Proof.
  destruct es as [|[[[n w] r] gap] es]; [now left | right].
  cbn [log_text]. unfold token. cbn [append]. eauto.
Qed.

Lemma findall_log_text (es : list entry) :
  Forall entry_ok es ->
  Re.findall pattern (log_text es) = map (fun '(n, w, r, _) => [n; w; r]) es.
Proof.
  induction 1 as [|[[[n w] r] gap] es (Hn & Hw & Hr & [Hg1 Hg2] & _) _ IH];
    cbn [log_text map].
  - now rewrite findall_pattern.
  - rewrite findall_token; try assumption.
    + f_equal. rewrite findall_skip_gap; auto using log_text_head.
    + destruct gap as [|c gap]; [| exact Hg1]. cbn [append].
      destruct (log_text_head es) as [-> | [u ->]]; reflexivity.
Qed.

(** Every match of the pattern is a token of the text. *)
Lemma findall_pattern_sound (s : string) (gs : list string) :
  In gs (Re.findall pattern s) ->
  exists pre n w r post,
    gs = [n; w; r] /\ is_number n = true /\ is_number w = true /\ is_number r = true /\
    s = (pre ++ token n w r ++ post)%string.
Proof.
  remember (String.length s) as k eqn:Ek. revert s Ek.
  induction k as [k IH] using lt_wf_ind. intros s -> H.
  rewrite findall_pattern in H.
  destruct (Re.search pattern s) as [[gs' rest] |] eqn:E; [| contradiction].
  pose proof (search_pattern_shorter _ _ _ E) as Hlen.
  destruct (search_pattern_inv _ _ _ E) as (pre & t & -> & Ht).
  destruct (token_at_inv _ _ _ Ht) as (n & w & r & -> & Hn & Hw & Hr & -> & _).
  destruct H as [<- | H].
  - now exists pre, n, w, r, rest.
  - destruct (IH _ Hlen rest eq_refl H) as (pre' & n' & w' & r' & post & -> & Hn' & Hw' & Hr' & ->).
    exists (pre ++ token n w r ++ pre')%string, n', w', r', post.
    repeat split; try assumption. now rewrite !append_assoc.
Qed.

(** A token at the head of a text is read with all the digits that follow
    its last number. *)
Lemma token_at_head (n w r post : string) :
  is_number n = true -> is_number w = true -> is_number r = true ->
  exists d rest,
    all_digits d = true /\ post = (d ++ rest)%string /\
    token_at (token n w r ++ post)%string = Some ([n; w; (r ++ d)%string], rest).
Proof.
  intros Hn Hw Hr. destruct (span_digits post) as [ds rest] eqn:E.
  destruct (span_digits_spec _ _ _ E) as (-> & Hd & Hrest).
  exists ds, rest. split; [exact Hd | split; [reflexivity |]].
  replace (token n w r ++ ds ++ rest)%string with (token n w (r ++ ds) ++ rest)%string
    by (unfold token; now rewrite !append_assoc).
  apply token_at_token; try assumption.
  destruct (is_number_cons _ Hr) as (c & t & -> & Hc & Ht).
  cbn [append]. apply is_number_digits. cbn [all_digits].
  now rewrite Hc, all_digits_append, Ht, Hd.
Qed.

(** Every token of the text is matched, its last number with all the
    digits that follow it: no match hides another token. *)
Lemma findall_pattern_complete (s pre n w r post : string) :
  is_number n = true -> is_number w = true -> is_number r = true ->
  s = (pre ++ token n w r ++ post)%string ->
  exists d, all_digits d = true /\ In [n; w; (r ++ d)%string] (Re.findall pattern s).
Proof.
  intros Hn Hw Hr.
  remember (String.length s) as k eqn:Ek. revert s pre Ek.
  induction k as [k IH] using lt_wf_ind. intros s pre -> Hs.
  rewrite findall_pattern, search_pattern_step.
  destruct (token_at s) as [[gs rest] |] eqn:E.
  - destruct (token_at_inv _ _ _ E) as (n0 & w0 & r0 & -> & Hn0 & Hw0 & Hr0 & Hs0 & _).
    assert (Hlen : String.length rest < String.length s).
    { rewrite Hs0, token_unfold, !length_append. cbn. lia. }
    destruct pre as [|c pre].
    + cbn [append] in Hs. subst s.
      destruct (token_at_head n w r post Hn Hw Hr) as (d & rest' & Hd & _ & E').
      rewrite E' in E. injection E as <- <- <- _.
      exists d. split; [exact Hd | now left].
    + rewrite Hs in Hs0. symmetry in Hs0.
      destruct (append_eq_append _ _ _ _ Hs0) as [m [[Htok Hm] | [Hpre ->]]].
      * destruct m as [|x m].
        -- cbn [append] in Hm. destruct (IH _ Hlen rest EmptyString eq_refl (eq_sym Hm)) as (d & Hd & Hin).
           exists d. split; [exact Hd | now right].
        -- exfalso. unfold token in Hm. cbn [append] in Hm. injection Hm as <- _.
           destruct (token_tail_no_S n0 w0 r0 Hn0 Hw0 Hr0) as (tail & Etail & Htail).
           rewrite Etail in Htok. cbn [append] in Htok. injection Htok as _ ->.
           rewrite has_char_append in Htail. cbn in Htail.
           now rewrite orb_true_r in Htail.
      * destruct (IH _ Hlen _ m eq_refl eq_refl) as (d & Hd & Hin).
        exists d. split; [exact Hd | now right].
  - destruct pre as [|c pre].
    + cbn [append] in Hs. subst s.
      now destruct (token_at_prefix n w r post Hn Hw Hr).
    + subst s. cbn [append].
      assert (Hlen : String.length (pre ++ token n w r ++ post)
                     < String.length (String c pre ++ token n w r ++ post)%string)
        by (cbn; lia).
      destruct (IH _ Hlen _ pre eq_refl eq_refl) as (d & Hd & Hin).
      exists d. split; [exact Hd |]. now rewrite findall_pattern in Hin.
Qed.

End Searching.

(** ** Floats of integers *)

Section Floats.

Local Open Scope Z_scope.

Lemma shr_1_nonneg (mrs : shr_record) : 0 <= shr_m mrs -> 0 <= shr_m (shr_1 mrs).
Proof.
  destruct mrs as [m r s]. cbn [shr_m]. intros H.
  destruct m as [|[p | p |] | p]; cbn; lia.
Qed.

Lemma iter_shr_1_nonneg (p : positive) (mrs : shr_record) :
  0 <= shr_m mrs -> 0 <= shr_m (iter_pos shr_1 p mrs).
Proof.
  revert mrs. induction p as [p IH | p IH |]; intros mrs H; cbn [iter_pos];
    auto using shr_1_nonneg.
Qed.

Lemma shr_fexp_nonneg (m e : Z) (l : location) :
  0 <= m -> 0 <= shr_m (fst (shr_fexp Py.prec Py.emax m e l)).
Proof.
  intros H. unfold shr_fexp, shr.
  assert (H0 : 0 <= shr_m (shr_record_of_loc m l)) by (destruct l as [|[]]; exact H).
  destruct (fexp Py.prec Py.emax (Zdigits2 m + e) - e); cbn [fst];
    auto using iter_shr_1_nonneg.
Qed.

Lemma round_nearest_even_nonneg (m : Z) (l : location) :
  0 <= m -> 0 <= round_nearest_even m l.
Proof.
  intros H. destruct l as [|[]]; cbn [round_nearest_even]; try lia.
  destruct (Z.even m); lia.
Qed.

Lemma binary_round_aux_nonneg (m e : Z) (l : location) :
  0 <= m -> float_nonneg (binary_round_aux Py.prec Py.emax false m e l) = true.
Proof.
  intros H. unfold binary_round_aux.
  pose proof (shr_fexp_nonneg m e l H) as H1.
  destruct (shr_fexp Py.prec Py.emax m e l) as [mrs' e'] eqn:E1. cbn [fst] in H1.
  pose proof (shr_fexp_nonneg _ e' loc_Exact
                (round_nearest_even_nonneg _ (loc_of_shr_record mrs') H1)) as H2.
  destruct (shr_fexp Py.prec Py.emax _ e' loc_Exact) as [mrs'' e''] eqn:E2.
  cbn [fst] in H2. destruct (shr_m mrs'') as [|p | p]; [reflexivity | | lia].
  now destruct (e'' <=? Py.emax - Py.prec).
Qed.

(** The float of a natural number is zero, positive or plus infinity. *)
Lemma float_of_Z_nonneg (z : Z) : 0 <= z -> float_nonneg (Py.float_of_Z z) = true.
Proof.
  intros H. unfold Py.float_of_Z, binary_normalize.
  destruct z as [|m | m]; [reflexivity | | lia].
  unfold binary_round. destruct (shl_align _ _ _) as [mz ez].
  now apply binary_round_aux_nonneg.
Qed.

Lemma digits2_pos_bounds (m : positive) :
  2 ^ (Zpos (digits2_pos m) - 1) <= Zpos m < 2 ^ Zpos (digits2_pos m).
Proof.
  induction m as [m IH | m IH |]; cbn [digits2_pos]; [| | now cbn].
  all: rewrite Pos2Z.inj_succ;
    replace (Z.succ (Zpos (digits2_pos m)) - 1) with (Z.succ (Zpos (digits2_pos m) - 1)) by lia;
    rewrite !Z.pow_succ_r by lia; lia.
Qed.

Lemma digits2_pos_le (m : positive) (n : Z) :
  Zpos m < 2 ^ n -> 0 <= n -> Zpos (digits2_pos m) <= n.
Proof.
  intros H Hn. destruct (Z.le_gt_cases (Zpos (digits2_pos m)) n) as [|Hgt]; [assumption |].
  pose proof (digits2_pos_bounds m) as [Hlo _].
  assert (2 ^ n <= 2 ^ (Zpos (digits2_pos m) - 1)) by (apply Z.pow_le_mono_r; lia). lia.
Qed.

Lemma iter_xO_mul (m k : positive) : Zpos (Pos.iter xO m k) = Zpos m * 2 ^ Zpos k.
Proof.
  induction k as [|k IH] using Pos.peano_ind.
  - cbn. lia.
  - rewrite Pos.iter_succ, Pos2Z.inj_xO, IH, Pos2Z.inj_succ, Z.pow_succ_r by lia. lia.
Qed.

Lemma iter_xO_digits (m k : positive) :
  digits2_pos (Pos.iter xO m k) = (digits2_pos m + k)%positive.
Proof.
  induction k as [|k IH] using Pos.peano_ind.
  - cbn. lia.
  - rewrite Pos.iter_succ. cbn [digits2_pos]. rewrite IH. lia.
Qed.

(** A mantissa of 53 bits is kept as it is. *)
Lemma binary_round_aux_canonical (m : positive) (e : Z) :
  Zpos (digits2_pos m) = 53 -> -1074 <= e <= 971 ->
  binary_round_aux 53 1024 false (Zpos m) e loc_Exact = S754_finite false m e.
Proof.
  intros Hd He. unfold binary_round_aux, shr_fexp, fexp, emin.
  cbn [Zdigits2 shr_record_of_loc]. rewrite Hd.
  replace (Z.max (53 + e - 53) (3 - 1024 - 53) - e) with 0 by lia.
  cbn [shr round_nearest_even shr_m loc_of_shr_record Zdigits2]. rewrite Hd.
  replace (Z.max (53 + e - 53) (3 - 1024 - 53) - e) with 0 by lia.
  cbn [shr shr_m]. replace (e <=? 1024 - 53) with true; [reflexivity |].
  symmetry. apply Z.leb_le. lia.
Qed.

(** Below [2^53] the float of an integer is that integer. *)
Lemma float_of_Z_exact (z : Z) :
  0 <= z < 2 ^ 53 -> float_exact_Z (Py.float_of_Z z) = Some z.
Proof.
  intros [H0 H]. unfold Py.float_of_Z, binary_normalize.
  destruct z as [|m | m]; [reflexivity | | lia].
  pose proof (digits2_pos_le m 53 H ltac:(lia)) as Hd.
  unfold binary_round, shl_align, fexp, emin, Py.prec, Py.emax.
  replace (Z.max (Zpos (digits2_pos m) + 0 - 53) (3 - 1024 - 53))
    with (Zpos (digits2_pos m) - 53) by lia.
  rewrite Z.sub_0_r.
  destruct (Zpos (digits2_pos m) - 53) as [|k | k] eqn:Ek; [| lia |].
  - rewrite binary_round_aux_canonical by lia.
    cbn [float_exact_Z Z.leb Z.compare cond_Zopp]. f_equal. lia.
  - rewrite binary_round_aux_canonical.
    + cbn [float_exact_Z Z.leb Z.compare Z.opp]. rewrite iter_xO_mul.
      rewrite Z.mod_mul, Z.div_mul by (apply Z.pow_nonzero; lia). reflexivity.
    + rewrite iter_xO_digits, Pos2Z.inj_add. lia.
    + lia.
Qed.

End Floats.

(** ** The log-line parser *)

Section Parser.

Lemma mapM_map {A B} (f : A -> result B) (g : A -> B) (l : list A) :
  (forall a, In a l -> f a = Ok (g a)) -> mapM f l = Ok (map g l).
Proof.
  induction l as [|a l IH]; intros H; cbn [mapM map]; [reflexivity |].
  rewrite (H a (or_introl eq_refl)), IH; [reflexivity |].
  intros b Hb. apply H. now right.
Qed.

Lemma Forall2_In_r {A B} (R : A -> B -> Prop) (l : list A) (l' : list B) (b : B) :
  Forall2 R l l' -> In b l' -> exists a, In a l /\ R a b.
Proof.
  induction 1 as [|a b' l l' HR _ IH]; intros Hb; [contradiction |].
  destruct Hb as [<- | Hb].
  - exists a. split; [now left | exact HR].
  - destruct (IH Hb) as (a' & Ha' & HR'). exists a'. split; [now right | exact HR'].
Qed.

(** The loop returns when its body returns on every element, and raises
    what the body raises on the first element on which it raises. *)
Lemma mapM_Ok_Forall2 {A B} (f : A -> result B) (l : list A) (bs : list B) :
  mapM f l = Ok bs -> Forall2 (fun a b => f a = Ok b) l bs.
Proof.
  revert bs. induction l as [|a l IH]; intros bs H; cbn [mapM] in H.
  - injection H as <-. constructor.
  - destruct (f a) as [b |] eqn:Ea; [| discriminate].
    destruct (mapM f l) as [bs' |]; [| discriminate].
    injection H as <-. constructor; [exact Ea | now apply IH].
Qed.

Lemma mapM_Raise_inv {A B} (f : A -> result B) (l : list A) (e : exn) :
  mapM f l = Raise e ->
  exists pre a post,
    l = pre ++ a :: post /\ Forall (fun x => exists b, f x = Ok b) pre /\ f a = Raise e.
Proof.
  induction l as [|a l IH]; intros H; cbn [mapM] in H; [discriminate |].
  destruct (f a) as [b |] eqn:Ea.
  - destruct (mapM f l) as [bs |]; [discriminate |].
    destruct (IH H) as (pre & x & post & -> & Hpre & Hx).
    exists (a :: pre), x, post. split; [reflexivity | split; [| exact Hx]].
    constructor; [now exists b | exact Hpre].
  - injection H as <-. exists [], a, l. split; [reflexivity | split; [constructor | exact Ea]].
Qed.

Lemma mapM_app {A B} (f : A -> result B) (l1 l2 : list A) :
  mapM f (l1 ++ l2) =
  match mapM f l1 with
  | Ok b1 =>
      match mapM f l2 with
      | Ok b2 => Ok (b1 ++ b2)
      | Raise e => Raise e
      end
  | Raise e => Raise e
  end.
Proof.
  induction l1 as [|a l1 IH]; cbn [mapM app].
  - now destruct (mapM f l2).
  - destruct (f a) as [b |]; [| reflexivity]. rewrite IH.
    destruct (mapM f l1) as [b1 |]; [| reflexivity].
    now destruct (mapM f l2).
Qed.

(** pydantic accepts the three numbers of a token when the set number and
    the reps have no more digits than [int] converts, and raises otherwise. *)
Lemma LiftingLog_init_run (n w r : string) :
  is_number n = true -> is_number w = true -> is_number r = true ->
  LiftingLog_init n w r =
  if ((String.length n <=? Py.int_max_str_digits)%nat
      && (String.length r <=? Py.int_max_str_digits)%nat)%bool
  then Ok (record_of n w r) else Raise ValidationError.
Proof.
  intros Hn Hw Hr. unfold LiftingLog_init, float_validator.
  rewrite (int_validator_run _ Hn), (float_number _ Hw), (int_validator_run _ Hr).
  destruct (String.length n <=? Py.int_max_str_digits)%nat; [| reflexivity].
  now destruct (String.length r <=? Py.int_max_str_digits)%nat.
Qed.

Lemma LiftingLog_init_numbers (n w r : string) :
  is_number n = true -> is_number w = true -> is_number r = true ->
  (String.length n <= Py.int_max_str_digits)%nat ->
  (String.length r <= Py.int_max_str_digits)%nat ->
  LiftingLog_init n w r = Ok (record_of n w r).
Proof.
  intros Hn Hw Hr Ln Lr. rewrite (LiftingLog_init_run _ _ _ Hn Hw Hr).
  apply Nat.leb_le in Ln, Lr. now rewrite Ln, Lr.
Qed.

Lemma LiftingLog_init_long (n w r : string) :
  is_number n = true -> is_number w = true -> is_number r = true ->
  (Py.int_max_str_digits < String.length n \/
   Py.int_max_str_digits < String.length r)%nat ->
  LiftingLog_init n w r = Raise ValidationError.
Proof.
  intros Hn Hw Hr Hlong. rewrite (LiftingLog_init_run _ _ _ Hn Hw Hr).
  destruct Hlong as [H | H]; apply Nat.leb_gt in H; rewrite H;
    [reflexivity | now rewrite andb_false_r].
Qed.

(** A text with a long token is long. *)
Lemma long_token_length (s : string) :
  long_token_occurs s -> (Py.int_max_str_digits < String.length s)%nat.
Proof.
  intros (pre & n & w & r & post & _ & _ & _ & -> & Hlong).
  rewrite token_unfold, !length_append. lia.
Qed.

(** When the parser returns, it returns one record for each match of the
    pattern, in order. *)
Lemma parse_Ok_inv (s : string) (recs : list LiftingLog) :
  parse_to_lifting_log s = Ok recs ->
  Forall2 (fun gs rec => exists n w r,
               gs = [n; w; r] /\ is_number n = true /\ is_number w = true /\
               is_number r = true /\ rec = record_of n w r)
          (Re.findall pattern s) recs.
Proof.
  unfold parse_to_lifting_log. intros H. apply mapM_Ok_Forall2 in H.
  pose proof (findall_pattern_sound s) as Hs.
  induction H as [|gs rec l recs Hrec _ IH]; constructor.
  - destruct (Hs gs (or_introl eq_refl)) as (_ & n & w & r & _ & -> & Hn & Hw & Hr & _).
    exists n, w, r. repeat split; try assumption.
    rewrite (LiftingLog_init_run _ _ _ Hn Hw Hr) in Hrec.
    destruct (_ && _)%bool; [now injection Hrec as <- | discriminate].
  - apply IH. intros; apply Hs; now right.
Qed.

(** When the parser raises, it is the validation that raises, on a match
    whose set number or reps is too long. *)
Lemma parse_Raise_inv (s : string) (e : exn) :
  parse_to_lifting_log s = Raise e ->
  e = ValidationError /\ long_token_occurs s.
Proof.
  unfold parse_to_lifting_log. intros H.
  destruct (mapM_Raise_inv _ _ _ H) as (l1 & gs & l2 & El & _ & Hgs).
  assert (Hin : In gs (Re.findall pattern s)) by (rewrite El; apply in_elt).
  destruct (findall_pattern_sound _ _ Hin)
    as (pre & n & w & r & post & -> & Hn & Hw & Hr & Hs).
  rewrite (LiftingLog_init_run _ _ _ Hn Hw Hr) in Hgs.
  destruct (Nat.leb_spec (String.length n) Py.int_max_str_digits) as [Ln | Ln];
    [destruct (Nat.leb_spec (String.length r) Py.int_max_str_digits) as [Lr | Lr] |];
    cbn [andb] in Hgs; [discriminate | |]; injection Hgs as <-;
    (split; [reflexivity |]); exists pre, n, w, r, post; auto 10.
Qed.

(** The parser returns or the validation fails: nothing else is raised. *)
Lemma parse_cases (s : string) :
  (exists recs, parse_to_lifting_log s = Ok recs) \/
  parse_to_lifting_log s = Raise ValidationError.
Proof.
  destruct (parse_to_lifting_log s) as [recs | e] eqn:E; [left; now exists recs | right].
  now destruct (parse_Raise_inv _ _ E) as [-> _].
Qed.

(** A match with a set number or reps too long makes the parser raise. *)
Lemma parse_long_match (s n w r : string) :
  In [n; w; r] (Re.findall pattern s) ->
  (Py.int_max_str_digits < String.length n \/
   Py.int_max_str_digits < String.length r)%nat ->
  parse_to_lifting_log s = Raise ValidationError.
Proof.
  intros Hin Hlong. destruct (parse_cases s) as [[recs E] | E]; [exfalso | exact E].
  destruct (findall_pattern_sound _ _ Hin)
    as (_ & n' & w' & r' & _ & Egs & Hn & Hw & Hr & _).
  injection Egs as <- <- <-.
  unfold parse_to_lifting_log in E. apply mapM_Ok_Forall2 in E.
  destruct (in_split _ _ Hin) as (l1 & l2 & El). rewrite El in E.
  apply Forall2_app_inv_l in E. destruct E as (b1 & b2 & _ & E & _).
  inversion E as [|? rec ? ? Hrec _]; subst.
  now rewrite (LiftingLog_init_long _ _ _ Hn Hw Hr Hlong) in Hrec.
Qed.

(** Every record comes from a token of the text. *)
Lemma parse_sound (s : string) (recs : list LiftingLog) (rec : LiftingLog) :
  parse_to_lifting_log s = Ok recs -> In rec recs ->
  exists pre n w r post,
    is_number n = true /\ is_number w = true /\ is_number r = true /\
    s = (pre ++ token n w r ++ post)%string /\ rec = record_of n w r.
Proof.
  intros H Hin. pose proof (parse_Ok_inv _ _ H) as HF.
  destruct (Forall2_In_r _ _ _ _ HF Hin) as (gs & Hgs & n & w & r & -> & Hn & Hw & Hr & ->).
  destruct (findall_pattern_sound _ _ Hgs)
    as (pre & n' & w' & r' & post & E & Hn' & Hw' & Hr' & ->).
  injection E as <- <- <-. now exists pre, n, w, r, post.
Qed.

Lemma not_occurs_by_search (s : string) : token_occurs_b s = false -> ~ token_occurs s.
Proof. intros H Ho. apply token_occurs_b_spec in Ho. congruence. Qed.

(** C1 (as amended).  A text made of [k] well-formed tokens
    ["Set <n> : <w>x<r>"] whose set numbers and reps have at most 4300
    digits, each followed by text that neither goes on with a digit nor
    holds a token, after a lead that holds no token, parses to exactly [k]
    records in the order of the tokens; [set_number] and [reps] are the
    captured integers and [weight] is the float of the captured integer,
    which is that integer whenever it is below [2^53].  For a token written
    from the integers [a], [b] and [c] the record is [(a, float b, c)]. *)
Theorem parse_log_text (lead : string) (es : list entry) :
  ~ token_occurs lead -> Forall entry_ok es ->
  parse_to_lifting_log (lead ++ log_text es) = Ok (map entry_record es) /\
  Forall (fun e =>
            let '(n, w, r, _) := e in
            set_number (entry_record e) = decimal_value n /\
            reps (entry_record e) = decimal_value r /\
            weight (entry_record e) = Py.float_of_Z (decimal_value w) /\
            ((decimal_value w < 2 ^ 53)%Z ->
             float_exact_Z (weight (entry_record e)) = Some (decimal_value w)) /\
            (forall a b c : N,
               n = number_text a -> w = number_text b -> r = number_text c ->
               entry_record e =
               {| set_number := Z.of_N a;
                  weight := Py.float_of_Z (Z.of_N b);
                  reps := Z.of_N c |})) es.
Proof.
  intros Hlead Hes. split.
  - unfold parse_to_lifting_log.
    rewrite findall_skip_gap by auto using log_text_head.
    rewrite (findall_log_text _ Hes), mapM_map with (g := fun gs =>
      match gs with [n; w; r] => record_of n w r | _ => record_of EmptyString EmptyString EmptyString end).
    + f_equal. rewrite map_map. apply map_ext. now intros [[[n w] r] gap].
    + intros gs Hgs. apply in_map_iff in Hgs.
      destruct Hgs as ([[[n w] r] gap] & <- & Hin).
      rewrite Forall_forall in Hes.
      destruct (Hes _ Hin) as (Hn & Hw & Hr & _ & Ln & Lr).
      now apply LiftingLog_init_numbers.
  - apply Forall_forall. intros [[[n w] r] gap] Hin.
    rewrite Forall_forall in Hes. destruct (Hes _ Hin) as (_ & Hw & _).
    repeat split.
    + intros Hlt. apply float_of_Z_exact. split; [| exact Hlt].
      auto with numbers.
    + intros a b c -> -> ->. cbn [entry_record]. unfold record_of.
      now rewrite !number_text_value.
Qed.

Lemma parse_log_text_witness :
  parse_to_lifting_log "Set 1 : 70x5 Set 2 : 75x3"
  = Ok [record_of "1" "70" "5"; record_of "2" "75" "3"].
Proof.
  apply (parse_log_text EmptyString [("1", "70", "5", " "); ("2", "75", "3", EmptyString)]).
  - apply not_occurs_by_search. reflexivity.
  - constructor; [| constructor; [| constructor]]; unfold entry_ok, gap_ok;
      repeat split; try (apply not_occurs_by_search; reflexivity);
      apply Nat.leb_le; reflexivity.
Defined.

(** C1, as stated, fails: the weight of the token ["Set 1 : 9007199254740993x5"]
    is the float 9007199254740992.0, not the captured integer. *)
Lemma parse_weight_rounded :
  parse_to_lifting_log "Set 1 : 9007199254740993x5"
  = Ok [{| set_number := 1; weight := S754_finite false 4503599627370496 1; reps := 5 |}]
  /\ float_exact_Z (S754_finite false 4503599627370496 1) = Some 9007199254740992%Z
  /\ decimal_value "9007199254740993" = 9007199254740993%Z
  /\ 9007199254740992%Z <> 9007199254740993%Z.
Proof. repeat split; try (vm_compute; reflexivity). discriminate. Qed.

End Parser.

Section ParserClaims.

(** C5.  A text in which no token ["Set <int> : <int>x<int>"] occurs parses
    to the empty list, not to an error: so do the empty text, ["no matches
    here"] and the malformed variants (wrong separator, extra white space,
    missing colon, decimal weight); and every record of any output comes
    from a well-formed token of the text, so that a malformed token adds
    none. *)
Theorem parse_no_token :
  (forall s, ~ token_occurs s -> parse_to_lifting_log s = Ok []) /\
  (parse_to_lifting_log EmptyString = Ok [] /\
   parse_to_lifting_log "no matches here" = Ok [] /\
   parse_to_lifting_log "Set 1 - 70x5" = Ok [] /\
   parse_to_lifting_log "Set  1 : 70x5" = Ok [] /\
   parse_to_lifting_log "Set 1 :  70x5" = Ok [] /\
   parse_to_lifting_log "Set 1 70x5" = Ok [] /\
   parse_to_lifting_log "Set 1 : 70.5x5" = Ok [] /\
   parse_to_lifting_log "Set 1 : 70x5 Set 2 - 70x5 Set 3 : 70x5"
   = Ok [record_of "1" "70" "5"; record_of "3" "70" "5"]) /\
  (forall s recs rec,
     parse_to_lifting_log s = Ok recs -> In rec recs ->
     exists pre n w r post,
       is_number n = true /\ is_number w = true /\ is_number r = true /\
       s = (pre ++ token n w r ++ post)%string /\ rec = record_of n w r).
Proof.
  split; [| split].
  - intros s H. unfold parse_to_lifting_log.
    now rewrite findall_pattern, (not_occurs_search _ H).
  - repeat split; vm_compute; reflexivity.
  - exact parse_sound.
Qed.

Lemma parse_no_token_witness :
  ~ token_occurs "no matches here" /\
  parse_to_lifting_log "no matches here" = Ok [].
Proof.
  assert (H : ~ token_occurs "no matches here")
    by (apply not_occurs_by_search; reflexivity).
  split; [exact H | exact (proj1 parse_no_token _ H)].
Defined.

(** C6 (as amended).  Every record that the parser returns has a
    [set_number] of at least 0, a [reps] of at least 0 and a [weight] that
    is zero, a positive float or plus infinity. *)
Theorem parse_record_bounds (s : string) (recs : list LiftingLog) (rec : LiftingLog) :
  parse_to_lifting_log s = Ok recs -> In rec recs ->
  (0 <= set_number rec)%Z /\ float_nonneg (weight rec) = true /\ (0 <= reps rec)%Z.
Proof.
  intros H Hin.
  destruct (parse_sound _ _ _ H Hin) as (_ & n & w & r & _ & Hn & Hw & Hr & _ & ->).
  cbn [record_of set_number weight reps].
  repeat split.
  - auto with numbers.
  - apply float_of_Z_nonneg. auto with numbers.
  - auto with numbers.
Qed.

Lemma parse_record_bounds_witness :
  (0 <= set_number (record_of "1" "70" "5"))%Z /\
  float_nonneg (weight (record_of "1" "70" "5")) = true /\
  (0 <= reps (record_of "1" "70" "5"))%Z.
Proof.
  apply (parse_record_bounds "Set 1 : 70x5" [record_of "1" "70" "5"]).
  - reflexivity.
  - simpl. left. reflexivity.
Defined.

(** C6, as stated, fails: the token ["Set 0 : 70x5"] gives a record whose
    [set_number] is 0, below 1; and a weight of 310 digits gives a record
    whose [weight] is plus infinity, which is no real number. *)
Lemma parse_set_number_zero :
  (exists rec,
     parse_to_lifting_log "Set 0 : 70x5" = Ok [rec] /\
     set_number rec = 0%Z /\ ~ (1 <= set_number rec)%Z) /\
  (exists rec,
     parse_to_lifting_log ("Set 1 : 1" ++ zeros 309 ++ "x5") = Ok [rec] /\
     weight rec = S754_infinity false).
Proof.
  split.
  - exists (record_of "0" "70" "5").
    split; [vm_compute; reflexivity | split; [reflexivity |]].
    change (~ (1 <= 0)%Z). lia.
  - exists {| set_number := 1; weight := S754_infinity false; reps := 5 |}.
    split; vm_compute; reflexivity.
Qed.

(** C9 (as amended).  The parser ends on every text, and either returns a
    list of records or raises [ValidationError], nothing else.  It returns
    a list whenever no token of the text has a set number or reps of more
    than 4300 digits, and it raises [ValidationError] whenever a token of
    the text has a set number or reps of [10^4300] or more. *)
Theorem parse_returns_or_invalid :
  (forall s,
     (exists recs, parse_to_lifting_log s = Ok recs) \/
     parse_to_lifting_log s = Raise ValidationError) /\
  (forall s,
     ~ long_token_occurs s -> exists recs, parse_to_lifting_log s = Ok recs) /\
  (forall s,
     huge_token_occurs s -> parse_to_lifting_log s = Raise ValidationError).
Proof.
  split; [exact parse_cases | split].
  - intros s Hs. destruct (parse_cases s) as [H | H]; [exact H |].
    now destruct (parse_Raise_inv _ _ H) as [_ Hlong].
  - intros s (pre & n & w & r & post & Hn & Hw & Hr & Hs & Hhuge).
    destruct (findall_pattern_complete _ _ _ _ _ _ Hn Hw Hr Hs) as (d & Hd & Hin).
    apply (parse_long_match _ _ _ _ Hin).
    destruct Hhuge as [H | H]; [left | right].
    + apply decimal_value_long; auto with numbers.
    + apply decimal_value_long in H; [| auto with numbers].
      rewrite length_append. lia.
Qed.

Lemma parse_returns_or_invalid_witness :
  (exists recs, parse_to_lifting_log "Set 1 : 70x5 Set 2 : 75x3" = Ok recs) /\
  parse_to_lifting_log ("Set 7 : 70x1" ++ zeros 4300) = Raise ValidationError.
Proof.
  split.
  - apply (proj1 (proj2 parse_returns_or_invalid)).
    intros H. apply long_token_length in H. vm_compute in H. lia.
  - apply (proj2 (proj2 parse_returns_or_invalid)).
    exists EmptyString, "7", "70", ("1" ++ zeros 4300)%string, EmptyString.
    repeat split; try (vm_compute; reflexivity).
    right. vm_compute. discriminate.
Defined.

(** C9, as stated, fails: the set number of the token
    ["Set 1000...0 : 70x5"], a one and 4300 zeros, is more than the
    validation of [LiftingLog] converts, and the parser raises
    [ValidationError]. *)
Lemma parse_long_set_number :
  is_number ("1" ++ zeros 4300) = true /\
  String.length ("1" ++ zeros 4300) = 4301 /\
  parse_to_lifting_log ("Set 1" ++ zeros 4300 ++ " : 70x5") = Raise ValidationError.
Proof. repeat split; vm_compute; reflexivity. Qed.

End ParserClaims.

(** ** Trimmed text *)

Section Trimming.

Lemma lstrip_first (s : string) :
  match first_char (Py.lstrip s) with
  | Some c => Py.isspace c = false
  | None => True
  end.
Proof.
  induction s as [|c s IH]; cbn [Py.lstrip]; [exact I |].
  destruct (Py.isspace c) eqn:Hc; [exact IH | exact Hc].
Qed.

Lemma rstrip_first (c : ascii) (s : string) :
  Py.isspace c = false -> first_char (Py.rstrip (String c s)) = Some c.
Proof.
  intros Hc. cbn [Py.rstrip]. destruct (Py.rstrip s); [now rewrite Hc | reflexivity].
Qed.

Lemma rstrip_last (s : string) :
  match last_char (Py.rstrip s) with
  | Some c => Py.isspace c = false
  | None => True
  end.
Proof.
  induction s as [|c s IH]; cbn [Py.rstrip]; [exact I |].
  destruct (Py.rstrip s) as [|d t] eqn:E.
  - destruct (Py.isspace c) eqn:Hc; [exact I | exact Hc].
  - exact IH.
Qed.

(** [strip] leaves no white space at either end. *)
Lemma strip_trimmed (s : string) : trimmed (Py.strip s) = true.
Proof.
  unfold trimmed, Py.strip. apply andb_true_intro. split.
  - pose proof (lstrip_first s) as H. destruct (Py.lstrip s) as [|c t]; [reflexivity |].
    cbn [first_char] in H. rewrite (rstrip_first _ _ H). now rewrite H.
  - pose proof (rstrip_last (Py.lstrip s)) as H.
    destruct (last_char (Py.rstrip (Py.lstrip s))); [now rewrite H | reflexivity].
Qed.

Lemma lstrip_spec (s : string) :
  exists l, all_space l = true /\ s = (l ++ Py.lstrip s)%string.
Proof.
  induction s as [|c s (l & Hl & E)]; [now exists EmptyString |].
  cbn [Py.lstrip]. destruct (Py.isspace c) eqn:Hc.
  - exists (String c l). cbn [all_space append]. rewrite Hc, Hl. now rewrite <- E.
  - now exists EmptyString.
Qed.

Lemma rstrip_spec (s : string) :
  exists r, all_space r = true /\ s = (Py.rstrip s ++ r)%string.
Proof.
  induction s as [|c s (r & Hr & E)]; [now exists EmptyString |].
  cbn [Py.rstrip]. destruct (Py.rstrip s) as [|a t].
  - cbn [append] in E. subst r. destruct (Py.isspace c) eqn:Hc.
    + exists (String c s). cbn [all_space append]. now rewrite Hc, Hr.
    + now exists s.
  - exists r. split; [exact Hr |]. cbn [append]. now rewrite E at 1.
Qed.

(** [strip] takes the white space off the two ends, and nothing else. *)
Lemma strip_spec (s : string) : trim_of s (Py.strip s).
Proof.
  split; [apply strip_trimmed |].
  destruct (lstrip_spec s) as (l & Hl & El).
  destruct (rstrip_spec (Py.lstrip s)) as (r & Hr & Er).
  exists l, r. split; [exact Hl | split; [exact Hr |]].
  unfold Py.strip. now rewrite <- Er.
Qed.

Lemma all_space_append (a b : string) :
  all_space (a ++ b)%string = (all_space a && all_space b)%bool.
Proof.
  induction a as [|c a IH]; cbn [append all_space]; [reflexivity |].
  now rewrite IH, andb_assoc.
Qed.

(** The trimmed text of white space is the empty text. *)
Lemma trim_of_all_space (text t : string) :
  trim_of text t -> all_space text = true -> t = EmptyString.
Proof.
  intros (Ht & l & r & _ & _ & ->) Hsp.
  rewrite !all_space_append in Hsp.
  apply andb_prop in Hsp. destruct Hsp as [_ Hsp].
  apply andb_prop in Hsp. destruct Hsp as [Hsp _].
  destruct t as [|c t]; [reflexivity |].
  unfold trimmed in Ht. cbn [first_char all_space] in Ht, Hsp.
  apply andb_prop in Hsp. destruct Hsp as [Hc _]. rewrite Hc in Ht. discriminate Ht.
Qed.

Lemma Forall2_In_l {A B} (R : A -> B -> Prop) (l : list A) (l' : list B) (a : A) :
  Forall2 R l l' -> In a l -> exists b, In b l' /\ R a b.
Proof.
  induction 1 as [|a' b l l' HR _ IH]; intros Ha; [contradiction |].
  destruct Ha as [<- | Ha].
  - exists b. split; [now left | exact HR].
  - destruct (IH Ha) as (b' & Hb' & HR'). exists b'. split; [now right | exact HR'].
Qed.

End Trimming.

(** ** The workout extractor *)

Section Extractor.

Variable BeautifulSoup : string -> Bs4.PageElement.

Lemma mapM_Forall2 {A B} (f : A -> result B) (R : A -> B -> Prop) (l : list A) :
  Forall (fun a => exists b, f a = Ok b /\ R a b) l ->
  exists bs, mapM f l = Ok bs /\ Forall2 R l bs.
Proof.
  induction 1 as [|a l (b & Hb & HR) _ (bs & IH & HF)]; cbn [mapM].
  - exists []. split; [reflexivity | constructor].
  - rewrite Hb, IH. exists (b :: bs). split; [reflexivity | now constructor].
Qed.

(** The loop stops at the first element whose body raises. *)
Lemma mapM_first_raise {A B} (f : A -> result B) (pre post : list A) (a : A) (e : exn) :
  Forall (fun x => exists b, f x = Ok b) pre -> f a = Raise e ->
  mapM f (pre ++ a :: post) = Raise e.
Proof.
  induction 1 as [|x pre (b & Hb) _ IH]; intros Ha; cbn [app mapM].
  - now rewrite Ha.
  - now rewrite Hb, (IH Ha).
Qed.

(** What the call does once the site has answered. *)
Lemma get_workout_response (self : JEFITClient) (username date : string)
    (net : Httpx.Net) (response : Httpx.Response) :
  Httpx.server net (Httpx.sent net) (request_of self username date) = Some response ->
  get_workout_from_date BeautifulSoup self username date net =
  (bind (Httpx.raise_for_status response) (fun _ =>
     bind (not_none (log_list (BeautifulSoup (Httpx.content response)))) (fun workout =>
       mapM exercise_block_of (exercise_blocks workout))),
   {| Httpx.server := Httpx.server net;
      Httpx.sent := Httpx.sent net ++ [request_of self username date] |}).
Proof.
  intros H. unfold get_workout_from_date, Httpx.get.
  change {| Httpx.url := logs_base_url (url_config self);
            Httpx.params := [("xid", username); ("dd", date)] |}
    with (request_of self username date).
  now rewrite H.
Qed.

Lemma get_workout_success (self : JEFITClient) (username date : string)
    (net : Httpx.Net) (response : Httpx.Response) (workout : Bs4.PageElement) :
  Httpx.server net (Httpx.sent net) (request_of self username date) = Some response ->
  Httpx.is_success response = true ->
  log_list (BeautifulSoup (Httpx.content response)) = Some workout ->
  fst (get_workout_from_date BeautifulSoup self username date net)
  = mapM exercise_block_of (exercise_blocks workout).
Proof.
  intros H Hs Hw. rewrite (get_workout_response _ _ _ _ _ H). cbn [fst].
  unfold Httpx.raise_for_status. rewrite Hs. cbn [bind]. now rewrite Hw.
Qed.

(** A record comes only from a block of the expected shape, read as the
    specification reads it. *)
Lemma exercise_block_of_Ok_inv (exercise : Bs4.PageElement) (rec : ExerciseBlock) :
  exercise_block_of exercise = Ok rec -> describes exercise rec.
Proof.
  unfold exercise_block_of. intros H.
  fold (log_bar exercise) in H. destruct (log_bar exercise) as [bar |] eqn:Hbar;
    [| discriminate]. cbn [not_none bind] in H. fold (log_bar_blocks bar) in H.
  destruct (length (log_bar_blocks bar) =? 4)%nat eqn:Hn; [| discriminate].
  cbn [assert bind] in H.
  destruct (log_bar_blocks bar) as [|picture [|name [|onerepmax [|liftinglogs [|x l]]]]]
    eqn:Hblocks; try discriminate.
  fold (first_link name) in H. destruct (first_link name) as [a |] eqn:Ha; [| discriminate].
  cbn [not_none bind] in H. unfold float_of_text in H.
  destruct (Py.float (Bs4.get_text onerepmax)) as [v |] eqn:Hv; [| discriminate].
  cbn [bind] in H.
  destruct (parse_to_lifting_log (Bs4.get_text liftinglogs)) as [logs |] eqn:Hlogs;
    [| discriminate].
  cbn [bind] in H. injection H as <-.
  exists bar, picture, name, onerepmax, liftinglogs, a.
  cbn [exercise_name one_rep_max lifting_logs].
  repeat split; try assumption; apply strip_spec.
Qed.

Lemma describes_well_formed (exercise : Bs4.PageElement) (rec : ExerciseBlock) :
  describes exercise rec -> well_formed exercise.
Proof.
  intros (bar & picture & name & onerepmax & liftinglogs & a & H1 & H2 & H3 & _ & H4 & H5).
  now exists bar, picture, name, onerepmax, liftinglogs, a, (one_rep_max rec),
    (lifting_logs rec).
Qed.

Lemma exercise_block_of_well_formed (exercise : Bs4.PageElement) :
  well_formed exercise ->
  exists rec, exercise_block_of exercise = Ok rec /\ describes exercise rec.
Proof.
  intros (bar & picture & name & onerepmax & liftinglogs & a & v & logs &
          Hbar & Hblocks & Ha & Hv & Hlogs).
  assert (H : exercise_block_of exercise =
              Ok {| exercise_name := Py.strip (Bs4.get_text a); one_rep_max := v;
                    lifting_logs := logs |}).
  { unfold exercise_block_of. unfold log_bar in Hbar. rewrite Hbar. cbn [not_none bind].
    unfold log_bar_blocks in Hblocks. rewrite Hblocks. cbn [length Nat.eqb assert bind].
    unfold first_link in Ha. rewrite Ha. cbn [not_none bind].
    unfold float_of_text. rewrite Hv. cbn [bind]. now rewrite Hlogs. }
  eexists. split; [exact H | now apply exercise_block_of_Ok_inv].
Qed.

(** What the loop body raises, it raises for one of the five failures of
    the block. *)
Lemma exercise_block_of_Raise_inv (exercise : Bs4.PageElement) (e : exn) :
  exercise_block_of exercise = Raise e -> block_failure exercise e.
Proof.
  unfold exercise_block_of. intros H.
  fold (log_bar exercise) in H. destruct (log_bar exercise) as [bar |] eqn:Hbar.
  2: { injection H as <-. now apply no_log_bar. }
  cbn [not_none bind] in H. fold (log_bar_blocks bar) in H.
  destruct (length (log_bar_blocks bar) =? 4)%nat eqn:Hn.
  2: { injection H as <-. apply Nat.eqb_neq in Hn. now apply (wrong_count _ bar). }
  cbn [assert bind] in H.
  destruct (log_bar_blocks bar) as [|picture [|name [|onerepmax [|liftinglogs [|x l]]]]]
    eqn:Hblocks; try discriminate Hn.
  fold (first_link name) in H. destruct (first_link name) as [a |] eqn:Ha.
  2: { injection H as <-. now apply (no_link _ bar picture name onerepmax liftinglogs). }
  cbn [not_none bind] in H. unfold float_of_text in H.
  destruct (Py.float (Bs4.get_text onerepmax)) as [v |] eqn:Hv.
  2: { injection H as <-. now apply (no_number _ bar picture name onerepmax liftinglogs a). }
  cbn [bind] in H.
  destruct (parse_to_lifting_log (Bs4.get_text liftinglogs)) as [logs | e'] eqn:Hlogs;
    [discriminate H |].
  cbn [bind] in H. injection H as <-.
  destruct (parse_Raise_inv _ _ Hlogs) as [-> _].
  now apply (invalid_logs _ bar picture name onerepmax liftinglogs a v).
Qed.

Lemma block_failure_raises (exercise : Bs4.PageElement) (e : exn) :
  block_failure exercise e -> exercise_block_of exercise = Raise e.
Proof.
  intros [Hbar | bar Hbar Hn | bar p n o l Hbar Hb Ha | bar p n o l a Hbar Hb Ha Hv
          | bar p n o l a v Hbar Hb Ha Hv Hlogs];
    unfold exercise_block_of; unfold log_bar in Hbar; rewrite Hbar; [reflexivity | ..];
    cbn [not_none bind]; fold (log_bar_blocks bar).
  - apply Nat.eqb_neq in Hn. now rewrite Hn.
  - rewrite Hb. cbn [length Nat.eqb assert bind]. unfold first_link in Ha. now rewrite Ha.
  - rewrite Hb. cbn [length Nat.eqb assert bind]. unfold first_link in Ha. rewrite Ha.
    cbn [not_none bind]. unfold float_of_text. now rewrite Hv.
  - rewrite Hb. cbn [length Nat.eqb assert bind]. unfold first_link in Ha. rewrite Ha.
    cbn [not_none bind]. unfold float_of_text. rewrite Hv. cbn [bind]. now rewrite Hlogs.
Qed.

Lemma exercise_block_of_count (exercise bar : Bs4.PageElement) :
  log_bar exercise = Some bar -> length (log_bar_blocks bar) <> 4 ->
  exercise_block_of exercise = Raise AssertionError.
Proof.
  intros Hbar Hn. unfold exercise_block_of. unfold log_bar in Hbar. rewrite Hbar.
  cbn [not_none bind]. fold (log_bar_blocks bar).
  apply Nat.eqb_neq in Hn. now rewrite Hn.
Qed.

Lemma exercise_block_of_no_link (exercise bar picture name onerepmax liftinglogs : Bs4.PageElement) :
  log_bar exercise = Some bar ->
  log_bar_blocks bar = [picture; name; onerepmax; liftinglogs] ->
  first_link name = None ->
  exercise_block_of exercise = Raise AttributeError.
Proof.
  intros Hbar Hblocks Ha. unfold exercise_block_of. unfold log_bar in Hbar. rewrite Hbar.
  cbn [not_none bind]. unfold log_bar_blocks in Hblocks. rewrite Hblocks.
  cbn [length Nat.eqb assert bind]. unfold first_link in Ha. now rewrite Ha.
Qed.

Lemma well_formed_ok (l : list Bs4.PageElement) :
  Forall well_formed l -> Forall (fun x => exists b, exercise_block_of x = Ok b) l.
Proof.
  intros H. eapply Forall_impl; [| exact H].
  intros x Hx. destruct (exercise_block_of_well_formed x Hx) as (b & Hb & _). now exists b.
Qed.

(** A block that fails makes the loop raise: its own failure when the
    blocks before it are of the expected shape, and otherwise the failure
    of the first block that is not. *)
Lemma blocks_raise (pre post : list Bs4.PageElement) (x : Bs4.PageElement) (e0 : exn) :
  exercise_block_of x = Raise e0 ->
  (Forall well_formed pre -> mapM exercise_block_of (pre ++ x :: post) = Raise e0) /\
  ((Forall well_formed pre /\ mapM exercise_block_of (pre ++ x :: post) = Raise e0) \/
   (exists pre' earlier post' e,
      pre = pre' ++ earlier :: post' /\ Forall well_formed pre' /\
      block_failure earlier e /\
      mapM exercise_block_of (pre ++ x :: post) = Raise e)).
Proof.
  intros Hx. split.
  - intros Hpre. apply mapM_first_raise; [now apply well_formed_ok | exact Hx].
  - induction pre as [|a pre IH]; cbn [app mapM].
    + left. split; [constructor | now rewrite Hx].
    + destruct (exercise_block_of a) as [b | e] eqn:Ea.
      * assert (Ha : well_formed a)
          by (eapply describes_well_formed, exercise_block_of_Ok_inv, Ea).
        destruct IH as [[Hpre ->] | (pre' & y & post' & e & -> & Hpre' & Hy & ->)].
        -- left. split; [now constructor | reflexivity].
        -- right. exists (a :: pre'), y, post', e.
           split; [reflexivity | split; [now constructor | split; [exact Hy | reflexivity]]].
      * right. exists [], a, pre, e.
        split; [reflexivity | split; [constructor | split; [| reflexivity]]].
        now apply exercise_block_of_Raise_inv.
Qed.

End Extractor.

Section Pages.

Lemma search_tag_id (i : string) (d : Bs4.PageElement) :
  Bs4.search_tag None [("id", i)] d = has_id i d.
Proof.
  destruct d as [s | s | n attrs contents]; cbn; [reflexivity | reflexivity |].
  now rewrite andb_true_r.
Qed.

(** A page without an element of id [logList1] has no log list. *)
Lemma log_list_absent (soup : Bs4.PageElement) :
  Forall (fun d => has_id "logList1" d = false) (Bs4.descendants soup) ->
  log_list soup = None.
Proof.
  unfold log_list, Bs4.find, Bs4.find_all. intros H.
  induction H as [|d l Hd _ IH]; [reflexivity |].
  cbn [filter]. now rewrite search_tag_id, Hd.
Qed.

Lemma bench_press_well_formed : well_formed bench_press_block.
Proof. unfold well_formed. do 8 eexists. repeat split; vm_compute; reflexivity. Qed.

Lemma padded_well_formed : well_formed padded_block.
Proof. unfold well_formed. do 8 eexists. repeat split; vm_compute; reflexivity. Qed.

End Pages.

(** C3 (as amended).  When the site answers with a success status and the
    page has a log list whose exercise blocks each hold a fixed log bar
    with exactly four blocks (picture, name, one-rep-max, logs text), a
    link in the name block, a one-rep-max text that [float] accepts and a
    logs text that the parser accepts, the call returns one record for each
    exercise block, in document order: the name is the text of the first
    link of the name block without the white space at its two ends, the
    one-rep-max the [float] of the text of its block, the logs the
    parser's output on the text of the logs block.  The parser accepts the
    logs text when no set number or reps in it has more than 4300 digits.
    On the fixture with the one block (["<img>"], ["<a>Bench Press</a>"],
    ["225"], ["Set 1 : 225x5 Set 2 : 225x5"]) the call returns the one
    record ("Bench Press", 225.0, [(1, 225.0, 5); (2, 225.0, 5)]), and it
    returns the same record for the block with white space around the name
    and the one-rep-max. *)
Theorem get_workout_records (BeautifulSoup : string -> Bs4.PageElement)
    (self : JEFITClient) (username date : string)
    (net : Httpx.Net) (response : Httpx.Response) :
  Httpx.server net (Httpx.sent net) (request_of self username date) = Some response ->
  Httpx.is_success response = true ->
  (forall workout,
     log_list (BeautifulSoup (Httpx.content response)) = Some workout ->
     Forall well_formed (exercise_blocks workout) ->
     exists records,
       fst (get_workout_from_date BeautifulSoup self username date net) = Ok records /\
       Forall2 describes (exercise_blocks workout) records) /\
  (forall exercise bar picture name onerepmax liftinglogs a v,
     log_bar exercise = Some bar ->
     log_bar_blocks bar = [picture; name; onerepmax; liftinglogs] ->
     first_link name = Some a ->
     Py.float (Bs4.get_text onerepmax) = Some v ->
     ~ long_token_occurs (Bs4.get_text liftinglogs) ->
     well_formed exercise) /\
  (BeautifulSoup (Httpx.content response) = page [bench_press_block] ->
   fst (get_workout_from_date BeautifulSoup self username date net) = Ok [bench_press] /\
   float_exact_Z (one_rep_max bench_press) = Some 225%Z) /\
  (BeautifulSoup (Httpx.content response) = page [padded_block; bench_press_block] ->
   fst (get_workout_from_date BeautifulSoup self username date net)
   = Ok [bench_press; bench_press]).
Proof.
  intros H Hs. split; [| split; [| split]].
  - intros workout Hw Hwf. rewrite (get_workout_success _ _ _ _ _ _ _ H Hs Hw).
    apply mapM_Forall2. eapply Forall_impl; [| exact Hwf].
    intros x Hx. now apply exercise_block_of_well_formed.
  - intros exercise bar picture name onerepmax liftinglogs a v Hbar Hb Ha Hv Hshort.
    destruct (parse_cases (Bs4.get_text liftinglogs)) as [[logs Hlogs] | Hlogs].
    + now exists bar, picture, name, onerepmax, liftinglogs, a, v, logs.
    + now destruct (parse_Raise_inv _ _ Hlogs) as [_ Hlong].
  - intros Hsoup. split; [| reflexivity].
    rewrite (get_workout_success _ _ _ _ _ _ (log_list_of [bench_press_block]) H Hs)
      by (rewrite Hsoup; reflexivity).
    vm_compute. reflexivity.
  - intros Hsoup.
    rewrite (get_workout_success _ _ _ _ _ _
               (log_list_of [padded_block; bench_press_block]) H Hs)
      by (rewrite Hsoup; reflexivity).
    vm_compute. reflexivity.
Qed.

Lemma get_workout_records_witness :
  exists records,
    fst (get_workout_from_date (fun _ => page [padded_block; bench_press_block]) client
           "wstipp" "2023-01-14" (site 200)) = Ok records /\
    Forall2 describes (exercise_blocks (log_list_of [padded_block; bench_press_block]))
      records.
Proof.
  apply (proj1 (get_workout_records (fun _ => page [padded_block; bench_press_block]) client
                  "wstipp" "2023-01-14" (site 200) ok_response eq_refl eq_refl)
           (log_list_of [padded_block; bench_press_block]) eq_refl).
  repeat constructor; [exact padded_well_formed | exact bench_press_well_formed].
Defined.

(** C3, as stated, fails: a page whose one exercise block has the four
    blocks in order, with a link in the name block and the number 225 as
    one-rep-max, and whose logs hold a set number of 4301 digits gets no
    record, the call raises [ValidationError]; and with ["N/A"] as
    one-rep-max the call raises [ValueError]. *)
Lemma four_blocks_no_records :
  (exercise_blocks (log_list_of [long_set_block]) = [long_set_block] /\
   (exists bar picture name onerepmax liftinglogs a,
      log_bar long_set_block = Some bar /\
      log_bar_blocks bar = [picture; name; onerepmax; liftinglogs] /\
      first_link name = Some a /\
      Bs4.get_text a = "Bench Press" /\
      Bs4.get_text onerepmax = "225" /\
      Bs4.get_text liftinglogs = ("Set 1" ++ zeros 4300 ++ " : 225x5")%string) /\
   fst (get_workout_from_date (fun _ => page [long_set_block]) client
          "wstipp" "2023-01-14" (site 200))
   = Raise ValidationError) /\
  (exercise_blocks (log_list_of [no_number_block]) = [no_number_block] /\
   (exists bar picture name onerepmax liftinglogs,
      log_bar no_number_block = Some bar /\
      log_bar_blocks bar = [picture; name; onerepmax; liftinglogs] /\
      Bs4.get_text onerepmax = "N/A") /\
   fst (get_workout_from_date (fun _ => page [no_number_block]) client
          "wstipp" "2023-01-14" (site 200))
   = Raise ValueError).
Proof.
  split; (split; [reflexivity |]); split.
  - do 6 eexists. repeat split; reflexivity.
  - vm_compute. reflexivity.
  - do 5 eexists. repeat split; reflexivity.
  - vm_compute. reflexivity.
Qed.

(** C2 (as amended).  When the site answers with a success status and the
    page has a log list in which some exercise block has a fixed log bar
    with a number of blocks other than 4, the call returns no records: it
    raises.  What it raises is the failed assertion on the number of blocks
    whenever every exercise block before that one is of the expected shape;
    otherwise it is the failure of an earlier block, the first one that is
    not of the expected shape. *)
Theorem get_workout_wrong_count (BeautifulSoup : string -> Bs4.PageElement)
    (self : JEFITClient) (username date : string)
    (net : Httpx.Net) (response : Httpx.Response)
    (workout : Bs4.PageElement) (pre post : list Bs4.PageElement)
    (exercise bar : Bs4.PageElement) :
  Httpx.server net (Httpx.sent net) (request_of self username date) = Some response ->
  Httpx.is_success response = true ->
  log_list (BeautifulSoup (Httpx.content response)) = Some workout ->
  exercise_blocks workout = pre ++ exercise :: post ->
  log_bar exercise = Some bar ->
  length (log_bar_blocks bar) <> 4 ->
  (Forall well_formed pre ->
   fst (get_workout_from_date BeautifulSoup self username date net) = Raise AssertionError) /\
  ((Forall well_formed pre /\
    fst (get_workout_from_date BeautifulSoup self username date net) = Raise AssertionError)
   \/
   (exists pre' earlier post' e,
      pre = pre' ++ earlier :: post' /\
      Forall well_formed pre' /\
      block_failure earlier e /\
      fst (get_workout_from_date BeautifulSoup self username date net) = Raise e)).
Proof.
  intros H Hs Hw Hex Hbar Hn.
  rewrite (get_workout_success _ _ _ _ _ _ _ H Hs Hw), Hex.
  apply blocks_raise. now apply (exercise_block_of_count _ bar).
Qed.

Lemma get_workout_wrong_count_witness :
  fst (get_workout_from_date (fun _ => page [bench_press_block; three_blocks]) client
         "wstipp" "2023-01-14" (site 200))
  = Raise AssertionError.
Proof.
  apply (proj1 (get_workout_wrong_count
                  (fun _ => page [bench_press_block; three_blocks]) client
                  "wstipp" "2023-01-14" (site 200)
                  {| Httpx.status_code := 200; Httpx.content := EmptyString |}
                  (Bs4.Tag "div" [("id", Bs4.AttrStr "logList1")]
                     [bench_press_block; three_blocks])
                  [bench_press_block] [] three_blocks
                  (Bs4.Tag "div" [("class", Bs4.AttrList ["fixedLogBar"])]
                     [log_bar_block [Bs4.Tag "img" [] []];
                      log_bar_block [Bs4.Tag "a" [] [Bs4.NavigableString "Bench Press"]];
                      log_bar_block [Bs4.NavigableString "225"]])
                  eq_refl eq_refl eq_refl eq_refl eq_refl
                  ltac:(vm_compute; discriminate))).
  repeat constructor. exact bench_press_well_formed.
Defined.

(** C2, as stated, fails: on a page whose first exercise block has four
    blocks but no link and whose second has three blocks, the call raises
    the null-reference failure of the first block, not the failed
    assertion. *)
Lemma wrong_count_after_no_link :
  exercise_blocks (Bs4.Tag "div" [("id", Bs4.AttrStr "logList1")] [no_link_block; three_blocks])
  = [no_link_block; three_blocks] /\
  (exists bar, log_bar three_blocks = Some bar /\ length (log_bar_blocks bar) = 3) /\
  fst (get_workout_from_date (fun _ => page [no_link_block; three_blocks]) client
         "wstipp" "2023-01-14" (site 200))
  = Raise AttributeError /\
  @Raise (list ExerciseBlock) AttributeError <> Raise AssertionError.
Proof.
  split; [reflexivity |]. split; [eexists; split; reflexivity |].
  split; [vm_compute; reflexivity | discriminate].
Qed.

(** C10 (as amended).  When the site answers with a success status and the
    page has a log list in which some exercise block has a fixed log bar
    with exactly four blocks and no link in the name block, the call
    returns no records: it raises.  What it raises is the null-reference
    failure whenever every exercise block before that one is of the
    expected shape; otherwise it is the failure of an earlier block, the
    first one that is not of the expected shape. *)
Theorem get_workout_no_link (BeautifulSoup : string -> Bs4.PageElement)
    (self : JEFITClient) (username date : string)
    (net : Httpx.Net) (response : Httpx.Response)
    (workout : Bs4.PageElement) (pre post : list Bs4.PageElement)
    (exercise bar picture name onerepmax liftinglogs : Bs4.PageElement) :
  Httpx.server net (Httpx.sent net) (request_of self username date) = Some response ->
  Httpx.is_success response = true ->
  log_list (BeautifulSoup (Httpx.content response)) = Some workout ->
  exercise_blocks workout = pre ++ exercise :: post ->
  log_bar exercise = Some bar ->
  log_bar_blocks bar = [picture; name; onerepmax; liftinglogs] ->
  first_link name = None ->
  (Forall well_formed pre ->
   fst (get_workout_from_date BeautifulSoup self username date net) = Raise AttributeError) /\
  ((Forall well_formed pre /\
    fst (get_workout_from_date BeautifulSoup self username date net) = Raise AttributeError)
   \/
   (exists pre' earlier post' e,
      pre = pre' ++ earlier :: post' /\
      Forall well_formed pre' /\
      block_failure earlier e /\
      fst (get_workout_from_date BeautifulSoup self username date net) = Raise e)).
Proof.
  intros H Hs Hw Hex Hbar Hblocks Ha.
  rewrite (get_workout_success _ _ _ _ _ _ _ H Hs Hw), Hex.
  apply blocks_raise.
  now apply (exercise_block_of_no_link _ bar picture name onerepmax liftinglogs).
Qed.

Lemma get_workout_no_link_witness :
  fst (get_workout_from_date (fun _ => page [bench_press_block; no_link_block]) client
         "wstipp" "2023-01-14" (site 200))
  = Raise AttributeError.
Proof.
  apply (proj1 (get_workout_no_link
                  (fun _ => page [bench_press_block; no_link_block]) client
                  "wstipp" "2023-01-14" (site 200)
                  {| Httpx.status_code := 200; Httpx.content := EmptyString |}
                  (Bs4.Tag "div" [("id", Bs4.AttrStr "logList1")]
                     [bench_press_block; no_link_block])
                  [bench_press_block] [] no_link_block
                  (Bs4.Tag "div" [("class", Bs4.AttrList ["fixedLogBar"])]
                     [log_bar_block [Bs4.Tag "img" [] []];
                      log_bar_block [Bs4.NavigableString "Bench Press"];
                      log_bar_block [Bs4.NavigableString "225"];
                      log_bar_block [Bs4.NavigableString "Set 1 : 225x5 Set 2 : 225x5"]])
                  (log_bar_block [Bs4.Tag "img" [] []])
                  (log_bar_block [Bs4.NavigableString "Bench Press"])
                  (log_bar_block [Bs4.NavigableString "225"])
                  (log_bar_block [Bs4.NavigableString "Set 1 : 225x5 Set 2 : 225x5"])
                  eq_refl eq_refl eq_refl eq_refl eq_refl eq_refl eq_refl)).
  repeat constructor. exact bench_press_well_formed.
Defined.

(** C10, as stated, fails: on a page whose first exercise block has three
    blocks and whose second has four blocks but no link, the call raises
    the failed assertion of the first block, not the null-reference
    failure. *)
Lemma no_link_after_wrong_count :
  exercise_blocks (Bs4.Tag "div" [("id", Bs4.AttrStr "logList1")] [three_blocks; no_link_block])
  = [three_blocks; no_link_block] /\
  (exists bar picture name onerepmax liftinglogs,
     log_bar no_link_block = Some bar /\
     log_bar_blocks bar = [picture; name; onerepmax; liftinglogs] /\
     first_link name = None) /\
  fst (get_workout_from_date (fun _ => page [three_blocks; no_link_block]) client
         "wstipp" "2023-01-14" (site 200))
  = Raise AssertionError /\
  @Raise (list ExerciseBlock) AssertionError <> Raise AttributeError.
Proof.
  split; [reflexivity |]. split; [do 5 eexists; repeat split; reflexivity |].
  split; [vm_compute; reflexivity | discriminate].
Qed.

(** C4.  When the site answers with a client or server error status, 400
    to 599, the call raises the HTTP status error and returns no records;
    it has sent exactly one request, the one for the given user and date,
    and sends no other. *)
Theorem get_workout_http_error (BeautifulSoup : string -> Bs4.PageElement)
    (self : JEFITClient) (username date : string)
    (net : Httpx.Net) (response : Httpx.Response) :
  Httpx.server net (Httpx.sent net) (request_of self username date) = Some response ->
  (400 <= Httpx.status_code response <= 599)%Z ->
  get_workout_from_date BeautifulSoup self username date net
  = (Raise HTTPStatusError,
     {| Httpx.server := Httpx.server net;
        Httpx.sent := Httpx.sent net ++ [request_of self username date] |}).
Proof.
  intros H Hc. rewrite (get_workout_response _ _ _ _ _ _ H). f_equal.
  unfold Httpx.raise_for_status, Httpx.is_success.
  replace (Httpx.status_code response <=? 299)%Z with false
    by (symmetry; apply Z.leb_gt; lia).
  now rewrite andb_false_r.
Qed.

Lemma get_workout_http_error_witness :
  fst (get_workout_from_date (fun _ => page [bench_press_block]) client
         "wstipp" "2023-01-14" (site 404))
  = Raise HTTPStatusError.
Proof.
  rewrite (get_workout_http_error (fun _ => page [bench_press_block]) client
             "wstipp" "2023-01-14" (site 404)
             {| Httpx.status_code := 404; Httpx.content := EmptyString |}).
  - reflexivity.
  - reflexivity.
  - simpl. lia.
Defined.

(** C7.  When the site answers with a success status and the page has no
    element whose id is [logList1], the call does not return the empty
    list: it raises the null-reference failure, whatever the reason for
    which the container is missing. *)
Theorem get_workout_no_log_list (BeautifulSoup : string -> Bs4.PageElement)
    (self : JEFITClient) (username date : string)
    (net : Httpx.Net) (response : Httpx.Response) :
  Httpx.server net (Httpx.sent net) (request_of self username date) = Some response ->
  Httpx.is_success response = true ->
  Forall (fun d => has_id "logList1" d = false)
         (Bs4.descendants (BeautifulSoup (Httpx.content response))) ->
  fst (get_workout_from_date BeautifulSoup self username date net) = Raise AttributeError /\
  fst (get_workout_from_date BeautifulSoup self username date net) <> Ok [].
Proof.
  intros H Hs Hno. rewrite (get_workout_response _ _ _ _ _ _ H). cbn [fst].
  unfold Httpx.raise_for_status. rewrite Hs. cbn [bind].
  rewrite (log_list_absent _ Hno). split; [reflexivity | discriminate].
Qed.

Lemma get_workout_no_log_list_witness :
  fst (get_workout_from_date
         (fun _ => Bs4.Tag "[document]" [] [Bs4.Tag "p" [] [Bs4.NavigableString "No logs"]])
         client "wstipp" "2023-01-14" (site 200))
  = Raise AttributeError.
Proof.
  apply (get_workout_no_log_list
           (fun _ => Bs4.Tag "[document]" [] [Bs4.Tag "p" [] [Bs4.NavigableString "No logs"]])
           client "wstipp" "2023-01-14" (site 200)
           {| Httpx.status_code := 200; Httpx.content := EmptyString |}).
  - reflexivity.
  - reflexivity.
  - simpl. repeat constructor.
Defined.

(** ** More on the log-line parser *)

Section ParserMore.

Lemma mapM_length {A B} (f : A -> result B) (l : list A) (bs : list B) :
  mapM f l = Ok bs -> length bs = length l.
Proof.
  revert bs. induction l as [|a l IH]; intros bs H; cbn [mapM] in H.
  - now injection H as <-.
  - destruct (f a) as [b |]; [| discriminate].
    destruct (mapM f l) as [bs' |]; [| discriminate].
    injection H as <-. cbn [length]. now rewrite (IH bs' eq_refl).
Qed.

Lemma starts_with_digit_append (rest t : string) :
  starts_with_digit rest = false ->
  t = EmptyString \/ (exists u, t = String "S" u) ->
  starts_with_digit (rest ++ t)%string = false.
Proof.
  intros Hr Ht. destruct rest as [|c rest]; [| exact Hr].
  cbn [append]. destruct Ht as [-> | [u ->]]; reflexivity.
Qed.

(** Text that starts with [S] and is put after a text changes nothing to
    the tokens read inside the first text. *)
Lemma token_at_append (s t : string) :
  s <> EmptyString ->
  t = EmptyString \/ (exists u, t = String "S" u) ->
  token_at (s ++ t)%string =
  match token_at s with
  | Some (gs, rest) => Some (gs, (rest ++ t)%string)
  | None => None
  end.
Proof.
  intros Hs Ht. destruct (token_at s) as [[gs rest] |] eqn:E.
  - destruct (token_at_inv _ _ _ E) as (n & w & r & -> & Hn & Hw & Hr & -> & Hrest).
    rewrite append_assoc. apply token_at_token; auto using starts_with_digit_append.
  - destruct (token_at (s ++ t)) as [[gs rest] |] eqn:E'; [| reflexivity].
    exfalso. destruct (token_at_inv _ _ _ E') as (n & w & r & _ & Hn & Hw & Hr & Hst & _).
    destruct (append_eq_append _ _ _ _ Hst) as [m [[-> ->] | [Htok Ht']]].
    + now apply (token_at_prefix n w r m Hn Hw Hr).
    + destruct m as [|c m].
      * rewrite append_nil_r in Htok. subst s.
        apply (token_at_prefix n w r EmptyString Hn Hw Hr). now rewrite append_nil_r.
      * destruct Ht as [-> | [u ->]]; [discriminate Ht' |]. injection Ht' as <- _.
        destruct (token_tail_no_S n w r Hn Hw Hr) as (tail & Etail & Htail).
        rewrite Etail in Htok. destruct s as [|x s]; [congruence |].
        injection Htok as _ ->. rewrite has_char_append in Htail.
        cbn in Htail. now rewrite orb_true_r in Htail.
Qed.

Lemma search_append (s t : string) :
  t = EmptyString \/ (exists u, t = String "S" u) ->
  Re.search pattern (s ++ t)%string =
  match Re.search pattern s with
  | Some (gs, rest) => Some (gs, (rest ++ t)%string)
  | None => Re.search pattern t
  end.
Proof.
  intros Ht. induction s as [|c s IH].
  - reflexivity.
  - rewrite (search_pattern_step (String c s)).
    cbn [append]. rewrite search_pattern_step.
    change (String c (s ++ t)) with (String c s ++ t)%string.
    rewrite token_at_append by (auto; discriminate).
    destruct (token_at (String c s)) as [[gs rest] |]; [reflexivity |].
    cbn [append]. exact IH.
Qed.

Lemma findall_append (s t : string) :
  t = EmptyString \/ (exists u, t = String "S" u) ->
  Re.findall pattern (s ++ t)%string = Re.findall pattern s ++ Re.findall pattern t.
Proof.
  intros Ht. remember (String.length s) as k eqn:Ek. revert s Ek.
  induction k as [k IH] using lt_wf_ind. intros s ->.
  rewrite (findall_pattern (s ++ t)), (findall_pattern s), (search_append _ _ Ht).
  destruct (Re.search pattern s) as [[gs rest] |] eqn:E.
  - cbn [app]. f_equal. apply (IH (String.length rest)); [| reflexivity].
    eapply search_pattern_shorter, E.
  - cbn [app]. symmetry. apply findall_pattern.
Qed.

End ParserMore.

Section ParserExtras.

(** The records of a text are the records of its matches, one for one. *)
Lemma parse_length (s : string) (recs : list LiftingLog) :
  parse_to_lifting_log s = Ok recs -> length recs = length (Re.findall pattern s).
Proof. unfold parse_to_lifting_log. apply mapM_length. Qed.

(** X1.  Parsing a text followed by a text that starts with [S] (or by
    nothing) is parsing the first and then the second: when both return,
    the records of the first followed by the records of the second are
    returned, and when one raises, the first that does is what is raised.
    Logs can be parsed piece by piece when they are cut in front of a
    ["Set ..."]. *)
Theorem parse_append (s t : string) :
  t = EmptyString \/ (exists u, t = String "S" u) ->
  parse_to_lifting_log (s ++ t)%string =
  match parse_to_lifting_log s with
  | Ok l1 =>
      match parse_to_lifting_log t with
      | Ok l2 => Ok (l1 ++ l2)
      | Raise e => Raise e
      end
  | Raise e => Raise e
  end.
Proof.
  intros Ht. unfold parse_to_lifting_log.
  rewrite (findall_append _ _ Ht). apply mapM_app.
Qed.

Lemma parse_append_witness :
  parse_to_lifting_log ("Set 1 : 70x5 junk" ++ "Set 2 : 75x3")
  = Ok ([record_of "1" "70" "5"] ++ [record_of "2" "75" "3"]).
Proof.
  rewrite (parse_append "Set 1 : 70x5 junk" "Set 2 : 75x3"
             (or_intror (ex_intro _ "et 2 : 75x3" eq_refl))).
  vm_compute. reflexivity.
Defined.

Lemma token_length (n w r : string) :
  is_number n = true -> is_number w = true -> is_number r = true ->
  11 <= String.length (token n w r).
Proof.
  intros Hn Hw Hr. unfold token. rewrite !length_append.
  destruct n; [discriminate |]. destruct w; [discriminate |].
  destruct r; [discriminate |]. cbn [String.length]. lia.
Qed.

Lemma findall_pattern_length (s : string) :
  11 * length (Re.findall pattern s) <= String.length s.
Proof.
  remember (String.length s) as k eqn:Ek. revert s Ek.
  induction k as [k IH] using lt_wf_ind. intros s ->.
  rewrite findall_pattern.
  destruct (Re.search pattern s) as [[gs rest] |] eqn:E; [| cbn; lia].
  pose proof (search_pattern_shorter _ _ _ E) as Hlen.
  pose proof (IH _ Hlen rest eq_refl) as Hrest.
  destruct (search_pattern_inv _ _ _ E) as (pre & t & -> & Ht).
  destruct (token_at_inv _ _ _ Ht) as (n & w & r & _ & Hn & Hw & Hr & -> & _).
  pose proof (token_length n w r Hn Hw Hr).
  rewrite !length_append in *. cbn [length]. lia.
Qed.

(** X2.  A token takes at least 11 characters and matches do not overlap:
    a text of [len] characters gives at most [len / 11] records. *)
Theorem parse_count_bound (s : string) (recs : list LiftingLog) :
  parse_to_lifting_log s = Ok recs -> 11 * length recs <= String.length s.
Proof.
  intros H. rewrite (parse_length _ _ H). apply findall_pattern_length.
Qed.

Lemma parse_count_bound_witness :
  11 * length [record_of "1" "7" "5"] <= String.length "Set 1 : 7x5".
Proof. apply (parse_count_bound "Set 1 : 7x5"). reflexivity. Defined.

End ParserExtras.

Section ParserFormat.

Lemma parse_entries (lead : string) (es : list entry) :
  ~ token_occurs lead -> Forall entry_ok es ->
  parse_to_lifting_log (lead ++ log_text es) = Ok (map entry_record es).
Proof.
  intros Hlead Hes. unfold parse_to_lifting_log.
  rewrite findall_skip_gap by auto using log_text_head.
  rewrite (findall_log_text _ Hes), mapM_map with (g := fun gs =>
    match gs with
    | [n; w; r] => record_of n w r
    | _ => record_of EmptyString EmptyString EmptyString
    end).
  - f_equal. rewrite map_map. apply map_ext. now intros [[[n w] r] gap].
  - intros gs Hgs. apply in_map_iff in Hgs.
    destruct Hgs as ([[[n w] r] gap] & <- & Hin).
    rewrite Forall_forall in Hes. destruct (Hes _ Hin) as (Hn & Hw & Hr & _ & Ln & Lr).
    now apply LiftingLog_init_numbers.
Qed.

Lemma parse_token (n w r : string) :
  is_number n = true -> is_number w = true -> is_number r = true ->
  (String.length n <= Py.int_max_str_digits)%nat ->
  (String.length r <= Py.int_max_str_digits)%nat ->
  parse_to_lifting_log (token n w r) = Ok [record_of n w r].
Proof.
  intros Hn Hw Hr Ln Lr.
  pose proof (parse_entries EmptyString [(n, w, r, EmptyString)]) as H.
  cbn [log_text append map entry_record] in H. rewrite append_nil_r in H.
  apply H.
  - apply not_occurs_by_search. reflexivity.
  - constructor; [| constructor]. unfold entry_ok, gap_ok.
    repeat split; try assumption. apply not_occurs_by_search. reflexivity.
Qed.

Lemma length_zeros (k : nat) (s : string) :
  String.length (zeros k ++ s)%string = k + String.length s.
Proof. induction k as [|k IH]; cbn [zeros append String.length]; [reflexivity | now rewrite IH]. Qed.

Lemma decimal_from_zeros (k : nat) (s : string) :
  decimal_from 0 (zeros k ++ s)%string = decimal_from 0 s.
Proof. induction k as [|k IH]; [reflexivity | exact IH]. Qed.

Lemma is_number_zeros (k : nat) (s : string) :
  is_number s = true -> is_number (zeros k ++ s)%string = true.
Proof.
  intros H. destruct k as [|k]; [exact H |].
  cbn [zeros append]. apply is_number_digits. cbn [all_digits].
  apply andb_true_intro. split; [reflexivity |].
  induction k as [|k IH]; cbn [zeros append all_digits]; auto with numbers.
Qed.

(** X3.  Zeros in front of a number of a token do not count, as long as
    the set number and the reps keep to the 4300 digits that the
    validation converts: the token ["Set 007 : 070x05"] gives the record
    of ["Set 7 : 70x5"]; the numbers are read in base ten. *)
Theorem parse_leading_zeros (i j k : nat) (n w r : string) :
  is_number n = true -> is_number w = true -> is_number r = true ->
  (i + String.length n <= Py.int_max_str_digits)%nat ->
  (k + String.length r <= Py.int_max_str_digits)%nat ->
  parse_to_lifting_log
    (token (zeros i ++ n)%string (zeros j ++ w)%string (zeros k ++ r)%string)
  = Ok [record_of n w r].
Proof.
  intros Hn Hw Hr Ln Lr.
  rewrite parse_token by (auto using is_number_zeros; now rewrite length_zeros).
  unfold record_of, decimal_value. now rewrite !decimal_from_zeros.
Qed.

Lemma parse_leading_zeros_witness :
  parse_to_lifting_log "Set 007 : 070x05" = Ok [record_of "7" "70" "5"].
Proof.
  apply (parse_leading_zeros 2 1 1 "7" "70" "5"); try reflexivity;
    apply Nat.leb_le; reflexivity.
Defined.

Lemma log_line_head (t : N * N * N) : exists u, log_line t = String "S" u.
Proof. destruct t as [[a b] c]. unfold log_line, token. cbn [append]. eauto. Qed.

Lemma format_logs_head (l : list (N * N * N)) :
  format_logs l = EmptyString \/ (exists u, format_logs l = String "S" u).
Proof.
  destruct l as [|t l]; [now left | right]. unfold format_logs. cbn [map Py.join String.concat].
  destruct (log_line_head t) as [u ->].
  destruct (map log_line l); cbn [append]; eauto.
Qed.

Lemma format_logs_cons (t : N * N * N) (l : list (N * N * N)) :
  format_logs (t :: l) =
  match l with
  | [] => log_line t
  | _ => (log_line t ++ " " ++ format_logs l)%string
  end.
Proof. destruct l; reflexivity. Qed.

Lemma findall_format_logs (l : list (N * N * N)) :
  Re.findall pattern (format_logs l)
  = map (fun '(a, b, c) => [number_text a; number_text b; number_text c]) l.
Proof.
  induction l as [|[[a b] c] l IH]; [now rewrite findall_pattern |].
  rewrite format_logs_cons. cbn [map]. destruct l as [|t l].
  - unfold log_line. rewrite <- (append_nil_r (token _ _ _)).
    rewrite findall_token by auto with numbers. now rewrite findall_pattern.
  - unfold log_line at 1. rewrite findall_token by auto with numbers.
    f_equal. rewrite findall_skip_gap; [exact IH | | apply format_logs_head].
    apply not_occurs_by_search. reflexivity.
Qed.

(** X4.  The docstring's format is read back: the text
    ["Set a1 : b1xc1 Set a2 : b2xc2 ..."] written from integers, the set
    numbers and the reps with at most 4300 digits, parses to the records
    [(a1, float b1, c1); (a2, float b2, c2); ...], in order, where
    [float b] is [b] itself below [2^53]. *)
Theorem parse_format_logs (l : list (N * N * N)) :
  Forall (fun '(a, _, c) =>
            (String.length (number_text a) <= Py.int_max_str_digits)%nat /\
            (String.length (number_text c) <= Py.int_max_str_digits)%nat) l ->
  parse_to_lifting_log (format_logs l) = Ok (map log_of l) /\
  Forall (fun '(a, b, c) =>
            (Z.of_N b < 2 ^ 53)%Z ->
            float_exact_Z (weight (log_of (a, b, c))) = Some (Z.of_N b)) l.
Proof.
  intros Hl. split.
  - unfold parse_to_lifting_log. rewrite findall_format_logs, mapM_map with (g := fun gs =>
      match gs with
      | [n; w; r] => record_of n w r
      | _ => record_of EmptyString EmptyString EmptyString
      end).
    + f_equal. rewrite map_map. apply map_ext. intros [[a b] c].
      unfold record_of, log_of. now rewrite !number_text_value.
    + intros gs Hgs. apply in_map_iff in Hgs. destruct Hgs as ([[a b] c] & <- & Hin).
      rewrite Forall_forall in Hl. destruct (Hl _ Hin) as [La Lc].
      apply LiftingLog_init_numbers; auto with numbers.
  - apply Forall_forall. intros [[a b] c] _ Hb. cbn [log_of weight].
    apply float_of_Z_exact. lia.
Qed.

Lemma parse_format_logs_witness :
  parse_to_lifting_log "Set 1 : 70x5 Set 2 : 75x3"
  = Ok [{| set_number := 1; weight := Py.float_of_Z 70; reps := 5 |};
        {| set_number := 2; weight := Py.float_of_Z 75; reps := 3 |}].
Proof.
  apply (parse_format_logs [(1, 70, 5); (2, 75, 3)]%N).
  constructor; [| constructor; [| constructor]]; split; apply Nat.leb_le; reflexivity.
Defined.

End ParserFormat.

Section WholeWeights.

Local Open Scope Z_scope.

Lemma shr_fexp_exponent (m e : Z) (l : location) :
  e <= snd (shr_fexp Py.prec Py.emax m e l).
Proof.
  unfold shr_fexp, shr.
  destruct (fexp Py.prec Py.emax (Zdigits2 m + e) - e) as [|p | p]; cbn [snd]; lia.
Qed.

(** Rounding at an exponent that is not negative gives a whole number. *)
Lemma binary_round_aux_whole (m e : Z) (l : location) :
  0 <= m -> 0 <= e ->
  binary_round_aux Py.prec Py.emax false m e l = S754_infinity false \/
  exists k, float_exact_Z (binary_round_aux Py.prec Py.emax false m e l) = Some k.
Proof.
  intros Hm He. unfold binary_round_aux.
  pose proof (shr_fexp_exponent m e l) as H1.
  pose proof (shr_fexp_nonneg m e l Hm) as N1.
  destruct (shr_fexp Py.prec Py.emax m e l) as [mrs' e'] eqn:E1. cbn [snd fst] in H1, N1.
  pose proof (shr_fexp_exponent (round_nearest_even (shr_m mrs') (loc_of_shr_record mrs'))
                e' loc_Exact) as H2.
  destruct (shr_fexp Py.prec Py.emax _ e' loc_Exact) as [mrs'' e''] eqn:E2.
  cbn [snd] in H2. destruct (shr_m mrs'') as [|p | p] eqn:Em.
  - right. now exists 0.
  - destruct (e'' <=? Py.emax - Py.prec); [right | now left].
    exists (Zpos p * 2 ^ e''). cbn [float_exact_Z cond_Zopp].
    replace (0 <=? e'') with true by (symmetry; apply Z.leb_le; lia). reflexivity.
  - exfalso.
    pose proof (shr_fexp_nonneg _ e' loc_Exact
                  (round_nearest_even_nonneg _ (loc_of_shr_record mrs') N1)) as N2.
    rewrite E2 in N2. cbn [fst] in N2. rewrite Em in N2. lia.
Qed.

(** The float of a natural number is a whole number or plus infinity. *)
Lemma float_of_Z_whole (z : Z) :
  0 <= z ->
  Py.float_of_Z z = S754_infinity false \/
  exists k, float_exact_Z (Py.float_of_Z z) = Some k.
Proof.
  intros Hz. destruct (Z.lt_ge_cases z (2 ^ 53)) as [Hlt | Hge].
  - right. exists z. now apply float_of_Z_exact.
  - unfold Py.float_of_Z, binary_normalize. destruct z as [|m | m]; [now right; exists 0 | | lia].
    unfold binary_round, shl_align.
    pose proof (digits2_pos_bounds m) as [_ Hhi].
    assert (Hd : 53 < Zpos (digits2_pos m)).
    { destruct (Z.lt_ge_cases 53 (Zpos (digits2_pos m))) as [|Hle]; [assumption |].
      assert (2 ^ Zpos (digits2_pos m) <= 2 ^ 53) by (apply Z.pow_le_mono_r; lia). lia. }
    unfold fexp, emin, Py.prec, Py.emax.
    replace (Z.max (Zpos (digits2_pos m) + 0 - 53) (3 - 1024 - 53))
      with (Zpos (digits2_pos m) - 53) by lia.
    rewrite Z.sub_0_r.
    destruct (Zpos (digits2_pos m) - 53) as [|k | k] eqn:Ek; [lia | | lia].
    apply (binary_round_aux_whole (Zpos m) 0 loc_Exact); lia.
Qed.

End WholeWeights.

(** X5.  The pattern takes digits only, so no weight has a fractional part:
    the weight of every record is a whole number, or plus infinity when the
    digits stand for an integer past the range of floats. *)
Theorem parse_weight_whole (s : string) (recs : list LiftingLog) (rec : LiftingLog) :
  parse_to_lifting_log s = Ok recs -> In rec recs ->
  weight rec = S754_infinity false \/
  exists k, (0 <= k)%Z /\ float_exact_Z (weight rec) = Some k.
Proof.
  intros H Hin.
  destruct (parse_sound _ _ _ H Hin) as (_ & n & w & r & _ & _ & Hw & _ & _ & ->).
  cbn [record_of weight].
  assert (Hv : (0 <= decimal_value w)%Z) by auto with numbers.
  destruct (float_of_Z_whole _ Hv) as [Hinf | [k Hk]]; [now left | right].
  exists k. split; [| exact Hk].
  pose proof (float_of_Z_nonneg _ Hv) as Hpos.
  destruct (Py.float_of_Z (decimal_value w)) as [sg | sg | | sg m e];
    cbn [float_exact_Z float_nonneg] in *; try discriminate.
  - injection Hk as <-. lia.
  - apply negb_true_iff in Hpos. subst sg. cbn [cond_Zopp] in Hk.
    destruct (0 <=? e)%Z eqn:E0.
    + assert (Ek : k = (Zpos m * 2 ^ e)%Z) by congruence. rewrite Ek.
      apply Z.mul_nonneg_nonneg; [lia | apply Z.pow_nonneg; lia].
    + destruct (Zpos m mod 2 ^ (- e) =? 0)%Z; [| discriminate].
      assert (Ek : k = (Zpos m / 2 ^ (- e))%Z) by congruence. rewrite Ek.
      apply Z.leb_gt in E0. apply Z.div_pos; [lia |].
      apply Z.pow_pos_nonneg; lia.
Qed.

Lemma parse_weight_whole_witness :
  weight (record_of "1" "70" "5") = S754_infinity false \/
  exists k, (0 <= k)%Z /\ float_exact_Z (weight (record_of "1" "70" "5")) = Some k.
Proof.
  apply (parse_weight_whole "Set 1 : 70x5" [record_of "1" "70" "5"]).
  - reflexivity.
  - simpl. left. reflexivity.
Defined.

(** ** More on the workout extractor *)

Section ExtractorMore.

Variable BeautifulSoup : string -> Bs4.PageElement.

(** The call ends in one of the two ways: it got a response, or it did not. *)
Lemma get_workout_no_response (self : JEFITClient) (username date : string)
    (net : Httpx.Net) :
  Httpx.server net (Httpx.sent net) (request_of self username date) = None ->
  get_workout_from_date BeautifulSoup self username date net =
  (Raise TransportError,
   {| Httpx.server := Httpx.server net;
      Httpx.sent := Httpx.sent net ++ [request_of self username date] |}).
Proof.
  intros H. unfold get_workout_from_date, Httpx.get.
  change {| Httpx.url := logs_base_url (url_config self);
            Httpx.params := [("xid", username); ("dd", date)] |}
    with (request_of self username date).
  now rewrite H.
Qed.

Lemma get_workout_sent (self : JEFITClient) (username date : string) (net : Httpx.Net) :
  snd (get_workout_from_date BeautifulSoup self username date net) =
  {| Httpx.server := Httpx.server net;
     Httpx.sent := Httpx.sent net ++ [request_of self username date] |}.
Proof.
  destruct (Httpx.server net (Httpx.sent net) (request_of self username date))
    as [response |] eqn:E.
  - now rewrite (get_workout_response _ _ _ _ _ _ E).
  - now rewrite (get_workout_no_response _ _ _ _ E).
Qed.

Lemma get_workout_Ok_inv (self : JEFITClient) (username date : string)
    (net : Httpx.Net) (records : list ExerciseBlock) :
  fst (get_workout_from_date BeautifulSoup self username date net) = Ok records ->
  exists response workout,
    Httpx.server net (Httpx.sent net) (request_of self username date) = Some response /\
    Httpx.is_success response = true /\
    log_list (BeautifulSoup (Httpx.content response)) = Some workout /\
    mapM exercise_block_of (exercise_blocks workout) = Ok records.
Proof.
  intros H.
  destruct (Httpx.server net (Httpx.sent net) (request_of self username date))
    as [response |] eqn:E.
  2: { rewrite (get_workout_no_response _ _ _ _ E) in H. discriminate H. }
  rewrite (get_workout_response _ _ _ _ _ _ E) in H. cbn [fst] in H.
  unfold Httpx.raise_for_status in H.
  destruct (Httpx.is_success response) eqn:Hs; [| discriminate]. cbn [bind] in H.
  destruct (log_list (BeautifulSoup (Httpx.content response))) as [workout |] eqn:Hw;
    [| discriminate].
  cbn [not_none bind] in H. now exists response, workout.
Qed.

End ExtractorMore.

(** X6.  The call returns records only when the site answered with a
    success status and the page has a log list, and then the records are,
    one for one and in document order, what the exercise blocks of the log
    list describe: no record is made up, left out or reordered, and none
    comes from a block that is not of the expected shape. *)
Theorem get_workout_Ok_describes (BeautifulSoup : string -> Bs4.PageElement)
    (self : JEFITClient) (username date : string)
    (net : Httpx.Net) (records : list ExerciseBlock) :
  fst (get_workout_from_date BeautifulSoup self username date net) = Ok records ->
  exists response workout,
    Httpx.server net (Httpx.sent net) (request_of self username date) = Some response /\
    Httpx.is_success response = true /\
    log_list (BeautifulSoup (Httpx.content response)) = Some workout /\
    Forall2 describes (exercise_blocks workout) records /\
    Forall well_formed (exercise_blocks workout).
Proof.
  intros H. destruct (get_workout_Ok_inv _ _ _ _ _ _ H) as (response & workout & E & Hs & Hw & Hm).
  exists response, workout. repeat split; try assumption.
  - apply mapM_Ok_Forall2 in Hm. eapply Forall2_impl; [| exact Hm].
    intros x rec Hx. now apply exercise_block_of_Ok_inv.
  - apply mapM_Ok_Forall2 in Hm. clear - Hm.
    induction Hm as [|x rec l l' Hx _ IH]; constructor; [| exact IH].
    eapply describes_well_formed, exercise_block_of_Ok_inv, Hx.
Qed.

Lemma get_workout_Ok_describes_witness :
  exists response workout,
    Httpx.server (site 200) (Httpx.sent (site 200))
      (request_of client "wstipp" "2023-01-14") = Some response /\
    Httpx.is_success response = true /\
    log_list (page [bench_press_block]) = Some workout /\
    Forall2 describes (exercise_blocks workout) [bench_press] /\
    Forall well_formed (exercise_blocks workout).
Proof.
  apply (get_workout_Ok_describes (fun _ => page [bench_press_block]) client
           "wstipp" "2023-01-14" (site 200) [bench_press]).
  vm_compute. reflexivity.
Defined.

(** X7.  With a success status and a log list on the page, the call
    returns the empty list exactly when the log list holds no exercise
    block: an empty workout is an empty result, not a failure. *)
Theorem get_workout_empty (BeautifulSoup : string -> Bs4.PageElement)
    (self : JEFITClient) (username date : string)
    (net : Httpx.Net) (response : Httpx.Response) (workout : Bs4.PageElement) :
  Httpx.server net (Httpx.sent net) (request_of self username date) = Some response ->
  Httpx.is_success response = true ->
  log_list (BeautifulSoup (Httpx.content response)) = Some workout ->
  (fst (get_workout_from_date BeautifulSoup self username date net) = Ok []
   <-> exercise_blocks workout = []).
Proof.
  intros H Hs Hw. rewrite (get_workout_success _ _ _ _ _ _ _ H Hs Hw). split.
  - intros Hm. apply mapM_length in Hm. now destruct (exercise_blocks workout).
  - now intros ->.
Qed.

Lemma get_workout_empty_witness :
  fst (get_workout_from_date (fun _ => page []) client "wstipp" "2023-01-14" (site 200))
  = Ok [].
Proof.
  apply (get_workout_empty (fun _ => page []) client "wstipp" "2023-01-14" (site 200)
           ok_response (log_list_of []) eq_refl eq_refl eq_refl).
  reflexivity.
Defined.

(** X8.  With a success status and a log list on the page, the outcome is
    decided by the exercise blocks in document order: either all are of the
    expected shape and the call returns their records, or the call raises
    what the first block that is not raises: the null-reference failure
    (no fixed log bar, or no link in the name block), the failed assertion
    (a number of blocks other than 4), the value error of [float] (a
    one-rep-max text that is no number) or the validation error of the
    parser (a logs text that it does not accept).  Nothing else is
    raised. *)
Theorem get_workout_outcome (BeautifulSoup : string -> Bs4.PageElement)
    (self : JEFITClient) (username date : string)
    (net : Httpx.Net) (response : Httpx.Response) (workout : Bs4.PageElement) :
  Httpx.server net (Httpx.sent net) (request_of self username date) = Some response ->
  Httpx.is_success response = true ->
  log_list (BeautifulSoup (Httpx.content response)) = Some workout ->
  (Forall well_formed (exercise_blocks workout) /\
   exists records,
     fst (get_workout_from_date BeautifulSoup self username date net) = Ok records /\
     Forall2 describes (exercise_blocks workout) records)
  \/
  (exists pre exercise post e,
     exercise_blocks workout = pre ++ exercise :: post /\
     Forall well_formed pre /\
     block_failure exercise e /\
     (e = AttributeError \/ e = AssertionError \/ e = ValueError \/
      e = ValidationError) /\
     fst (get_workout_from_date BeautifulSoup self username date net) = Raise e).
Proof.
  intros H Hs Hw. rewrite (get_workout_success _ _ _ _ _ _ _ H Hs Hw).
  destruct (mapM exercise_block_of (exercise_blocks workout)) as [records | e] eqn:Hm.
  - left. apply mapM_Ok_Forall2 in Hm.
    assert (HF : Forall2 describes (exercise_blocks workout) records).
    { eapply Forall2_impl; [| exact Hm]. intros x rec. apply exercise_block_of_Ok_inv. }
    split; [| now exists records].
    clear - HF. induction HF as [|x rec l l' Hx _ IH]; constructor; [| exact IH].
    eapply describes_well_formed, Hx.
  - right. destruct (mapM_Raise_inv _ _ _ Hm) as (pre & x & post & Hl & Hpre & Hx).
    pose proof (exercise_block_of_Raise_inv _ _ Hx) as Hf.
    exists pre, x, post, e. repeat split; try assumption.
    + eapply Forall_impl; [| exact Hpre]. intros y [rec Hy].
      eapply describes_well_formed, exercise_block_of_Ok_inv, Hy.
    + destruct Hf; auto.
Qed.

Lemma get_workout_outcome_witness :
  (Forall well_formed (exercise_blocks (log_list_of [bench_press_block; long_set_block])) /\
   exists records,
     fst (get_workout_from_date (fun _ => page [bench_press_block; long_set_block]) client
            "wstipp" "2023-01-14" (site 200)) = Ok records /\
     Forall2 describes (exercise_blocks (log_list_of [bench_press_block; long_set_block]))
       records)
  \/
  (exists pre exercise post e,
     exercise_blocks (log_list_of [bench_press_block; long_set_block])
     = pre ++ exercise :: post /\
     Forall well_formed pre /\
     block_failure exercise e /\
     (e = AttributeError \/ e = AssertionError \/ e = ValueError \/
      e = ValidationError) /\
     fst (get_workout_from_date (fun _ => page [bench_press_block; long_set_block]) client
            "wstipp" "2023-01-14" (site 200)) = Raise e).
Proof.
  apply (get_workout_outcome (fun _ => page [bench_press_block; long_set_block]) client
           "wstipp" "2023-01-14" (site 200) ok_response
           (log_list_of [bench_press_block; long_set_block]) eq_refl eq_refl eq_refl).
Defined.

(** X9.  An exercise block without a fixed log bar makes the call raise
    and return no records; what is raised is the null-reference failure
    whenever the exercise blocks before it are of the expected shape, and
    otherwise the failure of the first block that is not. *)
Theorem get_workout_no_log_bar (BeautifulSoup : string -> Bs4.PageElement)
    (self : JEFITClient) (username date : string)
    (net : Httpx.Net) (response : Httpx.Response)
    (workout : Bs4.PageElement) (pre post : list Bs4.PageElement)
    (exercise : Bs4.PageElement) :
  Httpx.server net (Httpx.sent net) (request_of self username date) = Some response ->
  Httpx.is_success response = true ->
  log_list (BeautifulSoup (Httpx.content response)) = Some workout ->
  exercise_blocks workout = pre ++ exercise :: post ->
  log_bar exercise = None ->
  (Forall well_formed pre ->
   fst (get_workout_from_date BeautifulSoup self username date net) = Raise AttributeError) /\
  ((Forall well_formed pre /\
    fst (get_workout_from_date BeautifulSoup self username date net) = Raise AttributeError)
   \/
   (exists pre' earlier post' e,
      pre = pre' ++ earlier :: post' /\
      Forall well_formed pre' /\
      block_failure earlier e /\
      fst (get_workout_from_date BeautifulSoup self username date net) = Raise e)).
Proof.
  intros H Hs Hw Hex Hbar.
  rewrite (get_workout_success _ _ _ _ _ _ _ H Hs Hw), Hex.
  apply blocks_raise, block_failure_raises. now apply no_log_bar.
Qed.

Lemma get_workout_no_log_bar_witness :
  fst (get_workout_from_date (fun _ => page [bench_press_block; no_bar_block]) client
         "wstipp" "2023-01-14" (site 200))
  = Raise AttributeError.
Proof.
  apply (proj1 (get_workout_no_log_bar
                  (fun _ => page [bench_press_block; no_bar_block]) client
                  "wstipp" "2023-01-14" (site 200) ok_response
                  (log_list_of [bench_press_block; no_bar_block])
                  [bench_press_block] [] no_bar_block
                  eq_refl eq_refl eq_refl eq_refl eq_refl)).
  repeat constructor. exact bench_press_well_formed.
Defined.

(** X10.  A one-rep-max block whose text [float] does not accept makes the
    call raise and return no records; what is raised is the value error of
    [float] whenever the exercise blocks before it are of the expected
    shape, and otherwise the failure of the first block that is not.
    [float] does not accept an empty text, ["N/A"], a number with a unit,
    or a number after a unit separator (0x1f), which [str.strip] would
    remove; it accepts a number between spaces. *)
Theorem get_workout_no_number (BeautifulSoup : string -> Bs4.PageElement)
    (self : JEFITClient) (username date : string)
    (net : Httpx.Net) (response : Httpx.Response)
    (workout : Bs4.PageElement) (pre post : list Bs4.PageElement)
    (exercise bar picture name onerepmax liftinglogs a : Bs4.PageElement) :
  Httpx.server net (Httpx.sent net) (request_of self username date) = Some response ->
  Httpx.is_success response = true ->
  log_list (BeautifulSoup (Httpx.content response)) = Some workout ->
  exercise_blocks workout = pre ++ exercise :: post ->
  log_bar exercise = Some bar ->
  log_bar_blocks bar = [picture; name; onerepmax; liftinglogs] ->
  first_link name = Some a ->
  Py.float (Bs4.get_text onerepmax) = None ->
  ((Forall well_formed pre ->
    fst (get_workout_from_date BeautifulSoup self username date net) = Raise ValueError) /\
   ((Forall well_formed pre /\
     fst (get_workout_from_date BeautifulSoup self username date net) = Raise ValueError)
    \/
    (exists pre' earlier post' e,
       pre = pre' ++ earlier :: post' /\
       Forall well_formed pre' /\
       block_failure earlier e /\
       fst (get_workout_from_date BeautifulSoup self username date net) = Raise e))) /\
  (Py.float EmptyString = None /\
   Py.float "N/A" = None /\
   Py.float "225 lbs" = None /\
   Py.float (String (ascii_of_nat 31) "225") = None /\
   Py.float " 225 " = Some (Py.float_of_Z 225)).
Proof.
  intros H Hs Hw Hex Hbar Hb Ha Hv. split; [| repeat split; vm_compute; reflexivity].
  rewrite (get_workout_success _ _ _ _ _ _ _ H Hs Hw), Hex.
  apply blocks_raise, block_failure_raises.
  now apply (no_number _ bar picture name onerepmax liftinglogs a).
Qed.

Lemma get_workout_no_number_witness :
  fst (get_workout_from_date (fun _ => page [bench_press_block; separator_block]) client
         "wstipp" "2023-01-14" (site 200))
  = Raise ValueError.
Proof.
  apply (proj1 (proj1 (get_workout_no_number
                  (fun _ => page [bench_press_block; separator_block]) client
                  "wstipp" "2023-01-14" (site 200) ok_response
                  (log_list_of [bench_press_block; separator_block])
                  [bench_press_block] [] separator_block
                  (Bs4.Tag "div" [("class", Bs4.AttrList ["fixedLogBar"])]
                     [log_bar_block [Bs4.Tag "img" [] []];
                      log_bar_block [Bs4.Tag "a" [] [Bs4.NavigableString "Bench Press"]];
                      log_bar_block [Bs4.NavigableString (String (ascii_of_nat 31) "225")];
                      log_bar_block [Bs4.NavigableString "Set 1 : 225x5 Set 2 : 225x5"]])
                  (log_bar_block [Bs4.Tag "img" [] []])
                  (log_bar_block [Bs4.Tag "a" [] [Bs4.NavigableString "Bench Press"]])
                  (log_bar_block [Bs4.NavigableString (String (ascii_of_nat 31) "225")])
                  (log_bar_block [Bs4.NavigableString "Set 1 : 225x5 Set 2 : 225x5"])
                  (Bs4.Tag "a" [] [Bs4.NavigableString "Bench Press"])
                  eq_refl eq_refl eq_refl eq_refl eq_refl eq_refl eq_refl eq_refl))).
  repeat constructor. exact bench_press_well_formed.
Defined.

(** X11.  Every call sends exactly one request, whatever comes of it: a
    GET of the configured logs URL with the user as [xid] and the date as
    [dd]; the user-profile URL is never requested.  When no response
    arrives the call raises the transport error.  Two calls in a row send
    their two requests in order. *)
Theorem get_workout_one_request (BeautifulSoup : string -> Bs4.PageElement)
    (self : JEFITClient) (username date username' date' : string) (net : Httpx.Net) :
  let net1 := snd (get_workout_from_date BeautifulSoup self username date net) in
  let net2 := snd (get_workout_from_date BeautifulSoup self username' date' net1) in
  Httpx.sent net1 =
    Httpx.sent net ++
    [{| Httpx.url := logs_base_url (url_config self);
        Httpx.params := [("xid", username); ("dd", date)] |}] /\
  Httpx.sent net2 =
    Httpx.sent net ++
    [{| Httpx.url := logs_base_url (url_config self);
        Httpx.params := [("xid", username); ("dd", date)] |};
     {| Httpx.url := logs_base_url (url_config self);
        Httpx.params := [("xid", username'); ("dd", date')] |}] /\
  (Httpx.server net (Httpx.sent net) (request_of self username date) = None ->
   fst (get_workout_from_date BeautifulSoup self username date net) = Raise TransportError).
Proof.
  cbv zeta. rewrite !get_workout_sent. cbn [Httpx.sent]. repeat split.
  - now rewrite <- app_assoc.
  - intros H. now rewrite (get_workout_no_response _ _ _ _ _ H).
Qed.

Lemma get_workout_one_request_witness :
  fst (get_workout_from_date (fun _ => page [bench_press_block]) client "wstipp" "2023-01-14"
         {| Httpx.server := fun _ _ => None; Httpx.sent := [] |})
  = Raise TransportError.
Proof.
  apply (get_workout_one_request (fun _ => page [bench_press_block]) client
           "wstipp" "2023-01-14" "wstipp" "2023-01-15"
           {| Httpx.server := fun _ _ => None; Httpx.sent := [] |}).
  reflexivity.
Defined.


(** X12.  The name of every record that the call returns is trimmed: it
    neither starts nor ends with white space. *)
Theorem get_workout_names_trimmed (BeautifulSoup : string -> Bs4.PageElement)
    (self : JEFITClient) (username date : string)
    (net : Httpx.Net) (records : list ExerciseBlock) (rec : ExerciseBlock) :
  fst (get_workout_from_date BeautifulSoup self username date net) = Ok records ->
  In rec records ->
  trimmed (exercise_name rec) = true.
Proof.
  intros H Hin.
  destruct (get_workout_Ok_inv _ _ _ _ _ _ H) as (response & workout & _ & _ & _ & Hm).
  apply mapM_Ok_Forall2 in Hm.
  destruct (Forall2_In_r _ _ _ _ Hm Hin) as (x & _ & Hx).
  destruct (exercise_block_of_Ok_inv _ _ Hx)
    as (_ & _ & _ & _ & _ & a & _ & _ & _ & [Ht _] & _).
  exact Ht.
Qed.

Lemma get_workout_names_trimmed_witness : trimmed (exercise_name bench_press) = true.
Proof.
  apply (get_workout_names_trimmed (fun _ => page [bench_press_block]) client
           "wstipp" "2023-01-14" (site 200) [bench_press] bench_press).
  - vm_compute. reflexivity.
  - simpl. left. reflexivity.
Defined.

(** X13.  The name of a record can be empty: when the call returns records
    and the first link of the name block of an exercise block holds white
    space only (or nothing), the record of that block has the empty name;
    the call does not raise for it. *)
Theorem get_workout_blank_name (BeautifulSoup : string -> Bs4.PageElement)
    (self : JEFITClient) (username date : string)
    (net : Httpx.Net) (response : Httpx.Response) (workout : Bs4.PageElement)
    (records : list ExerciseBlock)
    (exercise bar picture name onerepmax liftinglogs a : Bs4.PageElement) :
  Httpx.server net (Httpx.sent net) (request_of self username date) = Some response ->
  log_list (BeautifulSoup (Httpx.content response)) = Some workout ->
  fst (get_workout_from_date BeautifulSoup self username date net) = Ok records ->
  In exercise (exercise_blocks workout) ->
  log_bar exercise = Some bar ->
  log_bar_blocks bar = [picture; name; onerepmax; liftinglogs] ->
  first_link name = Some a ->
  all_space (Bs4.get_text a) = true ->
  exists rec,
    In rec records /\ describes exercise rec /\ exercise_name rec = EmptyString.
Proof.
  intros E Hw H Hin Hbar Hb Ha Hsp.
  destruct (get_workout_Ok_inv _ _ _ _ _ _ H) as (response' & workout' & E' & _ & Hw' & Hm).
  rewrite E in E'. injection E' as <-. rewrite Hw in Hw'. injection Hw' as <-.
  apply mapM_Ok_Forall2 in Hm.
  destruct (Forall2_In_l _ _ _ _ Hm Hin) as (rec & Hrec & Hx).
  pose proof (exercise_block_of_Ok_inv _ _ Hx) as Hd.
  exists rec. repeat split; try assumption.
  destruct Hd as (bar' & p' & n' & o' & l' & a' & Hbar' & Hb' & Ha' & Ht & _).
  rewrite Hbar in Hbar'. injection Hbar' as <-. rewrite Hb in Hb'.
  injection Hb' as <- <- <- <-. rewrite Ha in Ha'. injection Ha' as <-.
  now apply (trim_of_all_space (Bs4.get_text a)).
Qed.

Lemma get_workout_blank_name_witness :
  exists rec,
    In rec [{| exercise_name := EmptyString;
               one_rep_max := one_rep_max bench_press;
               lifting_logs := lifting_logs bench_press |}] /\
    describes blank_name_block rec /\ exercise_name rec = EmptyString.
Proof.
  apply (get_workout_blank_name (fun _ => page [blank_name_block]) client
           "wstipp" "2023-01-14" (site 200) ok_response (log_list_of [blank_name_block])
           _ blank_name_block
           (Bs4.Tag "div" [("class", Bs4.AttrList ["fixedLogBar"])]
              [log_bar_block [Bs4.Tag "img" [] []];
               log_bar_block [Bs4.Tag "a" [] [Bs4.NavigableString "  "]];
               log_bar_block [Bs4.NavigableString "225"];
               log_bar_block [Bs4.NavigableString "Set 1 : 225x5 Set 2 : 225x5"]])
           (log_bar_block [Bs4.Tag "img" [] []])
           (log_bar_block [Bs4.Tag "a" [] [Bs4.NavigableString "  "]])
           (log_bar_block [Bs4.NavigableString "225"])
           (log_bar_block [Bs4.NavigableString "Set 1 : 225x5 Set 2 : 225x5"])
           (Bs4.Tag "a" [] [Bs4.NavigableString "  "])).
  - reflexivity.
  - reflexivity.
  - vm_compute. reflexivity.
  - simpl. left. reflexivity.
  - reflexivity.
  - reflexivity.
  - reflexivity.
  - reflexivity.
Defined.

(** X14.  The sets of every record that the call returns keep the bounds
    of the parser: a set number and a number of reps of at least 0, and a
    weight that is zero, positive or plus infinity. *)
Theorem get_workout_set_bounds (BeautifulSoup : string -> Bs4.PageElement)
    (self : JEFITClient) (username date : string)
    (net : Httpx.Net) (records : list ExerciseBlock)
    (rec : ExerciseBlock) (log : LiftingLog) :
  fst (get_workout_from_date BeautifulSoup self username date net) = Ok records ->
  In rec records -> In log (lifting_logs rec) ->
  (0 <= set_number log)%Z /\ float_nonneg (weight log) = true /\ (0 <= reps log)%Z.
Proof.
  intros H Hin Hlog.
  destruct (get_workout_Ok_inv _ _ _ _ _ _ H) as (response & workout & _ & _ & _ & Hm).
  apply mapM_Ok_Forall2 in Hm.
  destruct (Forall2_In_r _ _ _ _ Hm Hin) as (x & _ & Hx).
  destruct (exercise_block_of_Ok_inv _ _ Hx)
    as (_ & _ & _ & _ & liftinglogs & _ & _ & _ & _ & _ & _ & Hp).
  destruct (parse_sound _ _ _ Hp Hlog) as (_ & n & w & r & _ & Hn & Hw & Hr & _ & ->).
  cbn [record_of set_number weight reps]. repeat split.
  - auto with numbers.
  - apply float_of_Z_nonneg. auto with numbers.
  - auto with numbers.
Qed.

Lemma get_workout_set_bounds_witness :
  (0 <= set_number (record_of "1" "225" "5"))%Z /\
  float_nonneg (weight (record_of "1" "225" "5")) = true /\
  (0 <= reps (record_of "1" "225" "5"))%Z.
Proof.
  apply (get_workout_set_bounds (fun _ => page [bench_press_block]) client
           "wstipp" "2023-01-14" (site 200) [bench_press] bench_press).
  - vm_compute. reflexivity.
  - simpl. left. reflexivity.
  - simpl. left. reflexivity.
Defined.

Section Script.

Variable BeautifulSoup : string -> Bs4.PageElement.
Variable str : ExerciseBlock -> string.

Lemma join_empty_cons (x : string) (l : list string) :
  Py.join EmptyString (x :: l) = (x ++ Py.join EmptyString l)%string.
Proof.
  unfold Py.join. destruct l as [|y l]; cbn [String.concat append]; [| reflexivity].
  now rewrite append_nil_r.
Qed.

Lemma print_loop (records : list ExerciseBlock) (stdout : string) :
  fold_left (fun out r => print EmptyString (print (str r) out)) records stdout
  = (stdout ++ Py.join EmptyString
                 (map (fun r => str r ++ newline ++ newline) records))%string.
Proof.
  revert stdout. induction records as [|r records IH]; intros stdout; cbn [fold_left map].
  - cbn. now rewrite append_nil_r.
  - rewrite IH, join_empty_cons. unfold print. cbn [append]. now rewrite !append_assoc.
Qed.

End Script.

(** X15.  The script sends one request, for the user ["wstipp"] and the
    date ["2023-01-14"] at the default logs URL, and its output is all or
    nothing: when the call returns, it has written the text of every
    record described by the exercise blocks of the page, in document order,
    each followed by an empty line; when the call raises, it has written
    nothing and the exception leaves the script. *)
Theorem main_output (BeautifulSoup : string -> Bs4.PageElement)
    (str : ExerciseBlock -> string) (net : Httpx.Net) (stdout : string) :
  let '(r, net', out) := main BeautifulSoup str net stdout in
  Httpx.sent net' =
    Httpx.sent net ++
    [{| Httpx.url := "https://www.jefit.com/members/user-logs/log/";
        Httpx.params := [("xid", "wstipp"); ("dd", "2023-01-14")] |}] /\
  ((exists response workout records,
      Httpx.server net (Httpx.sent net)
        (request_of (JEFITClient_init None) "wstipp" "2023-01-14") = Some response /\
      Httpx.is_success response = true /\
      log_list (BeautifulSoup (Httpx.content response)) = Some workout /\
      Forall2 describes (exercise_blocks workout) records /\
      r = Ok tt /\
      out = (stdout ++ Py.join EmptyString
                         (map (fun rec => str rec ++ newline ++ newline) records))%string)
   \/
   (exists e, r = Raise e /\ out = stdout)).
Proof.
  unfold main.
  pose proof (get_workout_sent BeautifulSoup (JEFITClient_init None)
                "wstipp" "2023-01-14" net) as Hsent.
  destruct (get_workout_from_date BeautifulSoup (JEFITClient_init None)
              "wstipp" "2023-01-14" net) as [results net'] eqn:E.
  cbn [snd] in Hsent. subst net'.
  destruct results as [records | e].
  - split; [reflexivity | left].
    assert (H : fst (get_workout_from_date BeautifulSoup (JEFITClient_init None)
                       "wstipp" "2023-01-14" net) = Ok records) by now rewrite E.
    destruct (get_workout_Ok_inv _ _ _ _ _ _ H) as (response & workout & Es & Hs & Hw & Hm).
    exists response, workout, records. repeat split; try assumption.
    + apply mapM_Ok_Forall2 in Hm. eapply Forall2_impl; [| exact Hm].
      intros x rec. apply exercise_block_of_Ok_inv.
    + apply print_loop.
  - split; [reflexivity | right]. now exists e.
Qed.
